(** * ReactionBlitz: the reaction-time game of [script.js]

    A shallow embedding of the [ReactionGame] class together with the pieces
    of the browser it talks to (timers, [localStorage], the console, the
    clock), followed by the properties of the session state machine. *)

From Stdlib Require Import ZArith QArith Qround String Ascii List Lia Lqa.
From stdpp Require Import gmap strings.

Local Open Scope string_scope.
Local Open Scope Z_scope.

(** ** JavaScript values and built-ins used by the script *)

Module JS.

(** The values [bestScore] can hold: [null], the result of [parseInt]
    (an integer or [NaN]) or a reaction time.  Integers are exact, which
    is what a JavaScript Number gives for magnitudes up to 2^53. *)
Inductive jsval :=
| Null
| NaN
| Num (n : Z).

(** ToBoolean on such a value. *)
Definition truthy (v : jsval) : bool :=
  match v with
  | Null => false
  | NaN => false
  | Num n => negb (n =? 0)
  end.

(** ToBoolean on a field that is [null] or an integer ([startTime],
    [waitTimeout]). *)
Definition truthy_int (v : option Z) : bool :=
  match v with
  | None => false
  | Some n => negb (n =? 0)
  end.

(** ToBoolean on a string or [null]: only [null] and the empty string are
    falsy. *)
Definition truthy_str (v : option string) : bool :=
  match v with
  | None => false
  | Some s => negb (String.eqb s EmptyString)
  end.

(** ToNumber on a field that is [null] or an integer: [null] becomes 0. *)
Definition to_number (v : option Z) : Z :=
  match v with
  | None => 0
  | Some n => n
  end.

(** [a < b] for an integer [a]: [null] is compared as 0 and every
    comparison with [NaN] is false. *)
Definition less_than (a : Z) (b : jsval) : bool :=
  match b with
  | Null => a <? 0
  | NaN => false
  | Num n => a <? n
  end.

(** *** Number.prototype.toString on integers *)

Definition digit_char (d : Z) : ascii :=
  ascii_of_N (48 + Z.to_N d).

(** Decimal digits of a non-negative integer, most significant first. *)
Fixpoint to_digits (fuel : nat) (n : Z) : list Z :=
  match fuel with
  | O => []
  | S f =>
      if n / 10 =? 0 then [n mod 10]
      else to_digits f (n / 10) ++ [n mod 10]
  end.

Definition string_of_digits (ds : list Z) : string :=
  string_of_list_ascii (map digit_char ds).

Definition digits_of_nonneg (n : Z) : list Z :=
  to_digits (S (Z.to_nat (Z.log2 n))) n.

Definition toString (n : Z) : string :=
  if n <? 0 then String "-" (string_of_digits (digits_of_nonneg (- n)))
  else string_of_digits (digits_of_nonneg n).

(** ToString of a value inside a template literal. *)
Definition to_string (v : jsval) : string :=
  match v with
  | Null => "null"
  | NaN => "NaN"
  | Num n => toString n
  end.

(** ToString of what [getItem] returned. *)
Definition string_of_item (v : option string) : string :=
  match v with
  | None => "null"
  | Some s => s
  end.

(** [x.toFixed(0)] for a positive [x]: the nearest integer, the larger one
    on a tie. *)
Definition toFixed0 (x : Q) : string :=
  toString (Qfloor (x + (1 # 2))%Q).

(** *** parseInt(string) with no radix argument *)

Definition code (c : ascii) : N := N_of_ascii c.

(** White space and line terminators of one byte. *)
Definition is_ws1 (c : ascii) : bool :=
  let n := code c in
  ((9 <=? n) && (n <=? 13))%N || (n =? 32)%N.

(** U+00A0, as UTF-8. *)
Definition is_ws2 (c1 c2 : ascii) : bool :=
  ((code c1 =? 194) && (code c2 =? 160))%N.

(** U+1680, U+2000..U+200A, U+2028, U+2029, U+202F, U+205F, U+3000 and
    U+FEFF, as UTF-8. *)
Definition is_ws3 (c1 c2 c3 : ascii) : bool :=
  let a := code c1 in
  let b := code c2 in
  let c := code c3 in
  ((a =? 225) && (b =? 154) && (c =? 128))%N
  || ((a =? 226) && (b =? 128)
      && (((128 <=? c) && (c <=? 138)) || (c =? 168) || (c =? 169) || (c =? 175)))%N
  || ((a =? 226) && (b =? 129) && (c =? 159))%N
  || ((a =? 227) && (b =? 128) && (c =? 128))%N
  || ((a =? 239) && (b =? 187) && (c =? 191))%N.

(** Step 2 of parseInt: drop leading white space. *)
Fixpoint trim_start (s : string) : string :=
  match s with
  | EmptyString => s
  | String c1 r1 =>
      if is_ws1 c1 then trim_start r1
      else
        match r1 with
        | EmptyString => s
        | String c2 r2 =>
            if is_ws2 c1 c2 then trim_start r2
            else
              match r2 with
              | EmptyString => s
              | String c3 r3 =>
                  if is_ws3 c1 c2 c3 then trim_start r3 else s
              end
        end
  end.

(** The value of a character as a digit of the given radix (10 or 16). *)
Definition digit_value (radix : Z) (c : ascii) : option Z :=
  let n := Z.of_N (code c) in
  if (48 <=? n) && (n <=? 57) then Some (n - 48)
  else if (radix =? 16) && (97 <=? n) && (n <=? 102) then Some (n - 87)
  else if (radix =? 16) && (65 <=? n) && (n <=? 70) then Some (n - 55)
  else None.

(** The longest prefix made of digits of the radix. *)
Fixpoint take_digits (radix : Z) (s : string) : list Z :=
  match s with
  | EmptyString => []
  | String c r =>
      match digit_value radix c with
      | Some d => d :: take_digits radix r
      | None => []
      end
  end.

Definition digits_value (radix : Z) (ds : list Z) : Z :=
  fold_left (fun acc d => acc * radix + d) ds 0.

Definition strip_sign (s : string) : Z * string :=
  match s with
  | String "-" r => (-1, r)
  | String "+" r => (1, r)
  | _ => (1, s)
  end.

Definition strip_prefix (s : string) : Z * string :=
  match s with
  | String "0" (String "x" r) => (16, r)
  | String "0" (String "X" r) => (16, r)
  | _ => (10, s)
  end.

(** [parseInt(s)]: white space, an optional sign, an optional [0x], then
    as many digits as there are; [NaN] when there is none.  A negative zero
    is the integer 0 (both are falsy and print as [0]). *)
Definition parseInt (s : string) : jsval :=
  let '(sign, s2) := strip_sign (trim_start s) in
  let '(radix, s3) := strip_prefix s2 in
  match take_digits radix s3 with
  | [] => NaN
  | ds => Num (sign * digits_value radix ds)
  end.

End JS.

(** ** The page: game object, timers, storage, console *)

Import JS.

Inductive GameState := START | WAITING | READY | RESULT | ERROR.

#[global] Instance GameState_eq_dec : EqDecision GameState.
Proof. solve_decision. Defined.

(** The string each state stands for in [GameStates]. *)
Definition GameStates (s : GameState) : string :=
  match s with
  | START => "start"
  | WAITING => "waiting"
  | READY => "ready"
  | RESULT => "result"
  | ERROR => "error"
  end.

(** The two functions the script hands to [setTimeout]: the one of
    [startGame] and the one of [updateUI]. *)
Inductive Callback := TriggerCallback | AutoResetCallback.

Record Timer := { callback : Callback; delay : Q }.

Inductive ConsoleEntry :=
| Log (msg : string)
| Error (msg : string).

(** The fields of the [ReactionGame] instance, the text of the three
    elements that show data, and the browser state the script reads and
    writes.  Display styles, class lists and the fixed captions of
    [updateUI] are left out. *)
Record World := {
  currentState : GameState;
  startTime : option Z;
  reactionTime : option Z;
  waitTimeout : option Z;
  bestScore : jsval;
  reactionTimeElement : string;
  resultMessage : string;
  bestScoreElement : string;
  timers : gmap Z Timer;
  nextTimerId : Z;
  localStorage : gmap string string;
  console : list ConsoleEntry
}.

Definition set_currentState (v : GameState) (w : World) : World :=
  {| currentState := v; startTime := startTime w;
     reactionTime := reactionTime w; waitTimeout := waitTimeout w;
     bestScore := bestScore w; reactionTimeElement := reactionTimeElement w;
     resultMessage := resultMessage w; bestScoreElement := bestScoreElement w;
     timers := timers w; nextTimerId := nextTimerId w;
     localStorage := localStorage w; console := console w |}.

Definition set_startTime (v : option Z) (w : World) : World :=
  {| currentState := currentState w; startTime := v;
     reactionTime := reactionTime w; waitTimeout := waitTimeout w;
     bestScore := bestScore w; reactionTimeElement := reactionTimeElement w;
     resultMessage := resultMessage w; bestScoreElement := bestScoreElement w;
     timers := timers w; nextTimerId := nextTimerId w;
     localStorage := localStorage w; console := console w |}.

Definition set_reactionTime (v : option Z) (w : World) : World :=
  {| currentState := currentState w; startTime := startTime w;
     reactionTime := v; waitTimeout := waitTimeout w;
     bestScore := bestScore w; reactionTimeElement := reactionTimeElement w;
     resultMessage := resultMessage w; bestScoreElement := bestScoreElement w;
     timers := timers w; nextTimerId := nextTimerId w;
     localStorage := localStorage w; console := console w |}.

Definition set_waitTimeout (v : option Z) (w : World) : World :=
  {| currentState := currentState w; startTime := startTime w;
     reactionTime := reactionTime w; waitTimeout := v;
     bestScore := bestScore w; reactionTimeElement := reactionTimeElement w;
     resultMessage := resultMessage w; bestScoreElement := bestScoreElement w;
     timers := timers w; nextTimerId := nextTimerId w;
     localStorage := localStorage w; console := console w |}.

Definition set_bestScore (v : jsval) (w : World) : World :=
  {| currentState := currentState w; startTime := startTime w;
     reactionTime := reactionTime w; waitTimeout := waitTimeout w;
     bestScore := v; reactionTimeElement := reactionTimeElement w;
     resultMessage := resultMessage w; bestScoreElement := bestScoreElement w;
     timers := timers w; nextTimerId := nextTimerId w;
     localStorage := localStorage w; console := console w |}.

Definition set_reactionTimeElement (v : string) (w : World) : World :=
  {| currentState := currentState w; startTime := startTime w;
     reactionTime := reactionTime w; waitTimeout := waitTimeout w;
     bestScore := bestScore w; reactionTimeElement := v;
     resultMessage := resultMessage w; bestScoreElement := bestScoreElement w;
     timers := timers w; nextTimerId := nextTimerId w;
     localStorage := localStorage w; console := console w |}.

Definition set_resultMessage (v : string) (w : World) : World :=
  {| currentState := currentState w; startTime := startTime w;
     reactionTime := reactionTime w; waitTimeout := waitTimeout w;
     bestScore := bestScore w; reactionTimeElement := reactionTimeElement w;
     resultMessage := v; bestScoreElement := bestScoreElement w;
     timers := timers w; nextTimerId := nextTimerId w;
     localStorage := localStorage w; console := console w |}.

Definition set_bestScoreElement (v : string) (w : World) : World :=
  {| currentState := currentState w; startTime := startTime w;
     reactionTime := reactionTime w; waitTimeout := waitTimeout w;
     bestScore := bestScore w; reactionTimeElement := reactionTimeElement w;
     resultMessage := resultMessage w; bestScoreElement := v;
     timers := timers w; nextTimerId := nextTimerId w;
     localStorage := localStorage w; console := console w |}.

Definition set_timers (v : gmap Z Timer) (w : World) : World :=
  {| currentState := currentState w; startTime := startTime w;
     reactionTime := reactionTime w; waitTimeout := waitTimeout w;
     bestScore := bestScore w; reactionTimeElement := reactionTimeElement w;
     resultMessage := resultMessage w; bestScoreElement := bestScoreElement w;
     timers := v; nextTimerId := nextTimerId w;
     localStorage := localStorage w; console := console w |}.

Definition set_nextTimerId (v : Z) (w : World) : World :=
  {| currentState := currentState w; startTime := startTime w;
     reactionTime := reactionTime w; waitTimeout := waitTimeout w;
     bestScore := bestScore w; reactionTimeElement := reactionTimeElement w;
     resultMessage := resultMessage w; bestScoreElement := bestScoreElement w;
     timers := timers w; nextTimerId := v;
     localStorage := localStorage w; console := console w |}.

Definition set_localStorage (v : gmap string string) (w : World) : World :=
  {| currentState := currentState w; startTime := startTime w;
     reactionTime := reactionTime w; waitTimeout := waitTimeout w;
     bestScore := bestScore w; reactionTimeElement := reactionTimeElement w;
     resultMessage := resultMessage w; bestScoreElement := bestScoreElement w;
     timers := timers w; nextTimerId := nextTimerId w;
     localStorage := v; console := console w |}.

Definition set_console (v : list ConsoleEntry) (w : World) : World :=
  {| currentState := currentState w; startTime := startTime w;
     reactionTime := reactionTime w; waitTimeout := waitTimeout w;
     bestScore := bestScore w; reactionTimeElement := reactionTimeElement w;
     resultMessage := resultMessage w; bestScoreElement := bestScoreElement w;
     timers := timers w; nextTimerId := nextTimerId w;
     localStorage := localStorage w; console := v |}.

(** *** Browser services *)

Definition console_log (msg : string) (w : World) : World :=
  set_console (console w ++ [Log msg]) w.

Definition console_error (msg : string) (w : World) : World :=
  set_console (console w ++ [Error msg]) w.

(** [setTimeout(cb, d)]: the timer is registered under a fresh handle,
    which is returned. *)
Definition setTimeout (cb : Callback) (d : Q) (w : World) : Z * World :=
  let id := nextTimerId w in
  (id, set_nextTimerId (id + 1)
         (set_timers (<[id := {| callback := cb; delay := d |}]> (timers w)) w)).

(** [clearTimeout(h)]: the timer of that handle, if still pending, is
    dropped; any other argument does nothing. *)
Definition clearTimeout (h : option Z) (w : World) : World :=
  match h with
  | Some id => set_timers (delete id (timers w)) w
  | None => w
  end.

Definition storageKey : string := "reactionGameBestScore".

Definition getItem (k : string) (w : World) : option string :=
  localStorage w !! k.

Definition setItem (k v : string) (w : World) : World :=
  set_localStorage (<[k := v]> (localStorage w)) w.

(** ** The methods of [ReactionGame] *)

Definition loadBestScore (w : World) : jsval :=
  let saved := getItem storageKey w in
  if truthy_str saved then parseInt (string_of_item saved) else Null.

Definition saveBestScore (score : Z) (w : World) : World :=
  let w := setItem storageKey (toString score) w in
  set_bestScore (Num score) w.

Definition updateBestScoreDisplay (w : World) : World :=
  set_bestScoreElement
    (if truthy (bestScore w) then to_string (bestScore w) ++ "ms" else "--") w.

(** Of [updateUI] what remains is the timer of the ERROR case, whose handle
    is not kept. *)
Definition updateUI (w : World) : World :=
  match currentState w with
  | ERROR => snd (setTimeout AutoResetCallback 3000%Q w)
  | _ => w
  end.

Definition setState (newState : GameState) (w : World) : World :=
  let w := set_currentState newState w in
  let w := updateUI w in
  console_log ("遊戲狀態變更為: " ++ GameStates newState) w.

(** [rnd] is what [Math.random()] returns in this call. *)
Definition startGame (rnd : Q) (w : World) : World :=
  let w := console_log "遊戲開始" w in
  let w := if truthy_int (waitTimeout w)
           then clearTimeout (waitTimeout w) w else w in
  let w := setState WAITING w in
  let waitTime := (rnd * 2000 + 1000)%Q in
  let w := console_log ("等待時間: " ++ toFixed0 waitTime ++ "ms") w in
  let '(h, w) := setTimeout TriggerCallback waitTime w in
  set_waitTimeout (Some h) w.

(** The function [startGame] schedules; [now] is what [Date.now()]
    returns. *)
Definition triggerCallback (now : Z) (w : World) : World :=
  if decide (currentState w = WAITING) then
    let w := set_startTime (Some now) w in
    let w := setState READY w in
    console_log "背景變綠，開始計時" w
  else w.

Definition getResultMessage (time : Z) (isNewRecord : bool) : string :=
  let message :=
    if time <? 200 then "🚀 超快反應！"
    else if time <? 300 then "⚡ 反應很棒！"
    else if time <? 500 then "👍 表現不錯！"
    else "🐌 還有進步空間" in
  if isNewRecord then message ++ String "010"%char "🎉 新紀錄！"
  else message.

Definition showResult (time : Z) (isNewRecord : bool) (w : World) : World :=
  let w := set_reactionTimeElement (toString time ++ "ms") w in
  let message := getResultMessage time isNewRecord in
  set_resultMessage message w.

Definition resetGame (w : World) : World :=
  let w := console_log "重置遊戲" w in
  let w := if truthy_int (waitTimeout w)
           then set_waitTimeout None (clearTimeout (waitTimeout w) w)
           else w in
  let w := set_startTime None w in
  let w := set_reactionTime None w in
  setState START w.

Definition handleEarlyClick (w : World) : World :=
  let w := console_log "玩家太早點擊" w in
  let w := if truthy_int (waitTimeout w)
           then set_waitTimeout None (clearTimeout (waitTimeout w) w)
           else w in
  setState ERROR w.

Definition handleReactionClick (now : Z) (w : World) : World :=
  if negb (truthy_int (startTime w)) then
    console_error "開始時間未設定" w
  else
    let endTime := now in
    let time := endTime - to_number (startTime w) in
    let w := set_reactionTime (Some time) w in
    let w := console_log ("反應時間: " ++ toString time ++ "ms") w in
    let isNewRecord := negb (truthy (bestScore w)) || less_than time (bestScore w) in
    let w := if isNewRecord
             then console_log "新紀錄！"
                    (updateBestScoreDisplay (saveBestScore time w))
             else w in
    let w := showResult time isNewRecord w in
    setState RESULT w.

(** [tagName] is [event.target.tagName]. *)
Definition handleBodyClick (tagName : string) (now : Z) (w : World) : World :=
  if String.eqb tagName "BUTTON" then w
  else
    match currentState w with
    | WAITING => handleEarlyClick w
    | READY => handleReactionClick now w
    | _ => w
    end.

(** The [beforeunload] listener asks for confirmation exactly here. *)
Definition beforeunload_confirms (w : World) : bool :=
  bool_decide (currentState w = WAITING) || bool_decide (currentState w = READY).

(** *** Construction *)

(** What the page provides before the script runs. *)
Record Page := {
  page_storage : gmap string string;
  page_firstTimerId : Z;
  page_reactionTimeText : string;
  page_resultMessageText : string;
  page_bestScoreText : string
}.

Definition init (w : World) : World :=
  let w := updateBestScoreDisplay w in
  let w := setState START w in
  console_log "反應速度遊戲已初始化" w.

(** The [DOMContentLoaded] listener: [new ReactionGame()] between two log
    lines. *)
Definition boot (p : Page) : World :=
  let w := {| currentState := START; startTime := None;
              reactionTime := None; waitTimeout := None; bestScore := Null;
              reactionTimeElement := page_reactionTimeText p;
              resultMessage := page_resultMessageText p;
              bestScoreElement := page_bestScoreText p;
              timers := ∅; nextTimerId := page_firstTimerId p;
              localStorage := page_storage p;
              console := [Log "DOM 載入完成，初始化反應速度遊戲"] |} in
  let w := set_bestScore (loadBestScore w) w in
  let w := init w in
  console_log "遊戲已準備就緒！" w.

(** *** Events *)

(** What the event loop delivers, one at a time: a click on one of the two
    buttons (it runs the button's listener, then bubbles to the body's), a
    click anywhere else, or a pending timer coming due.  No listener looks
    at the state before it runs, so every event is taken in every state;
    timers fire in any order. *)
Inductive Event :=
| StartButtonClick (rnd : Q)
| PlayAgainButtonClick
| BodyClick (tagName : string)
| TimerFires (h : Z).

Definition runCallback (cb : Callback) (now : Z) (w : World) : World :=
  match cb with
  | TriggerCallback => triggerCallback now w
  | AutoResetCallback => resetGame w
  end.

(** One turn of the event loop; [now] is the clock during that turn.  A
    timer fires only while it is pending, and is then no longer pending. *)
Definition step (now : Z) (e : Event) (w : World) : World :=
  match e with
  | StartButtonClick rnd => handleBodyClick "BUTTON" now (startGame rnd w)
  | PlayAgainButtonClick => handleBodyClick "BUTTON" now (resetGame w)
  | BodyClick tagName => handleBodyClick tagName now w
  | TimerFires h =>
      match timers w !! h with
      | Some t => runCallback (callback t) now (set_timers (delete h (timers w)) w)
      | None => w
      end
  end.

Fixpoint run (evs : list (Z * Event)) (w : World) : World :=
  match evs with
  | [] => w
  | (now, e) :: rest => run rest (step now e w)
  end.

(** Timer handles are positive. *)
Definition valid_page (p : Page) : Prop := 0 < page_firstTimerId p.

Inductive reachable : World -> Prop :=
| reachable_boot p : valid_page p -> reachable (boot p)
| reachable_step now e w : reachable w -> reachable (step now e w).

(** ** Auxiliary definitions for the proofs *)

(** What holds of the timers and of [waitTimeout] in every state the page
    can be in. *)
Record wf (w : World) : Prop := {
  wf_next : 0 < nextTimerId w;
  wf_timers : forall h t, timers w !! h = Some t -> 0 < h < nextTimerId w;
  wf_handle : forall h, waitTimeout w = Some h -> 0 < h < nextTimerId w;
  wf_trigger : forall h t,
    timers w !! h = Some t -> callback t = TriggerCallback ->
    currentState w = WAITING /\ waitTimeout w = Some h;
  wf_state :
    match currentState w with
    | START | ERROR => waitTimeout w = None
    | WAITING =>
        exists h t, waitTimeout w = Some h /\ timers w !! h = Some t
                    /\ callback t = TriggerCallback
    | READY | RESULT =>
        exists h, waitTimeout w = Some h /\ timers w !! h = None
    end;
  wf_data :
    match currentState w with
    | START => startTime w = None /\ reactionTime w = None
    | READY => exists t0, startTime w = Some t0
    | RESULT =>
        (exists t0, startTime w = Some t0) /\ exists r, reactionTime w = Some r
    | _ => True
    end
}.

Definition is_digit (d : Z) : Prop := 0 <= d < 10.

(** Text made of decimal digits only. *)
Fixpoint all_digits (s : string) : bool :=
  match s with
  | EmptyString => true
  | String c r =>
      (48 <=? Z.of_N (code c)) && (Z.of_N (code c) <=? 57) && all_digits r
  end.

(** Text that is a decimal integer: an optional minus sign, then one
    digit or more. *)
Definition is_decimal_text (s : string) : bool :=
  match s with
  | String "-" r => negb (String.eqb r EmptyString) && all_digits r
  | _ => negb (String.eqb s EmptyString) && all_digits s
  end.

(** How the game asks whether a best score is there: [!this.bestScore]. *)
Definition absent (v : jsval) : Prop := truthy v = false.


(** The transition table as the specification words it: reset in ERROR
    cancels the pending auto-reset. *)
Definition reset_cancels_auto_reset : Prop :=
  forall now w h t,
    reachable w -> currentState w = ERROR ->
    timers w !! h = Some t -> callback t = AutoResetCallback ->
    timers (step now PlayAgainButtonClick w) !! h = None.

(** The handle invariant as the specification words it: [waitTimeout] is
    non-null only in WAITING or ERROR. *)
Definition handle_only_waiting_or_error : Prop :=
  forall w,
    reachable w -> waitTimeout w <> None ->
    currentState w = WAITING \/ currentState w = ERROR.

(** The notice [getResultMessage] adds for a new record. *)
Definition newRecordNotice : string := String "010"%char "🎉 新紀錄！".

(** A page with nothing stored, and the sessions used as examples. *)
Definition demo_page : Page :=
  {| page_storage := ∅; page_firstTimerId := 1;
     page_reactionTimeText := "--"; page_resultMessageText := EmptyString;
     page_bestScoreText := "--" |}.

Definition demo_waiting : World :=
  step 1000 (StartButtonClick (1 # 2)%Q) (boot demo_page).

Definition demo_ready : World := step 3000 (TimerFires 1) demo_waiting.

Definition demo_result : World := step 3250 (BodyClick "DIV") demo_ready.

Definition demo_error : World := step 1500 (BodyClick "DIV") demo_waiting.

(** The clock reads 0 when the trigger fires. *)
Definition demo_ready_at_zero : World := step 0 (TimerFires 1) demo_waiting.

(** A page whose slot holds text with a numeric prefix. *)
Definition demo_page_prefix : Page :=
  {| page_storage := {[ storageKey := "12abc" ]}; page_firstTimerId := 1;
     page_reactionTimeText := "--"; page_resultMessageText := EmptyString;
     page_bestScoreText := "--" |}.

(** Two complete sessions: the first click lands in the millisecond of the
    trigger, the second 250 ms after it. *)
Definition session_zero : list (Z * Event) :=
  [(1000, StartButtonClick (1 # 2)%Q); (3000, TimerFires 1);
   (3000, BodyClick "DIV")].

Definition session_250 : list (Z * Event) :=
  [(5000, PlayAgainButtonClick); (6000, StartButtonClick (1 # 4)%Q);
   (7500, TimerFires 2); (7750, BodyClick "DIV")].

(** Three rounds with reaction times 320, 180 and 250 ms. *)
Definition three_rounds : list (Z * Event) :=
  [(1000, StartButtonClick (1 # 2)%Q); (3000, TimerFires 1);
   (3320, BodyClick "DIV"); (5000, PlayAgainButtonClick);
   (6000, StartButtonClick (1 # 4)%Q); (7500, TimerFires 2);
   (7680, BodyClick "DIV"); (9000, PlayAgainButtonClick);
   (9500, StartButtonClick (3 # 4)%Q); (12000, TimerFires 3);
   (12250, BodyClick "DIV")].

(** ** The page elements [setState] and [updateUI] write to *)

(** The class list of the body, the inline display of the start button and
    of the two captions, the class list of the result container and the
    text of the two captions. *)
Record View := {
  bodyClassList : gset string;
  startButtonDisplay : string;
  gameStatusDisplay : string;
  gameInstructionsDisplay : string;
  resultContainerClassList : gset string;
  gameStatusText : string;
  gameInstructionsText : string
}.

(** [Object.values(GameStates)]. *)
Definition stateValues : list GameState := [START; WAITING; READY; RESULT; ERROR].

(** What [updateUI] does to the elements: everything is hidden, then the
    case of the current state shows its own. *)
Definition updateUI_view (s : GameState) (v : View) : View :=
  let hidden :=
    {| bodyClassList := bodyClassList v;
       startButtonDisplay := "none";
       gameStatusDisplay := "none";
       gameInstructionsDisplay := "none";
       resultContainerClassList := resultContainerClassList v ∖ {[ "show" ]};
       gameStatusText := gameStatusText v;
       gameInstructionsText := gameInstructionsText v |} in
  match s with
  | START =>
      {| bodyClassList := bodyClassList hidden;
         startButtonDisplay := "block";
         gameStatusDisplay := gameStatusDisplay hidden;
         gameInstructionsDisplay := gameInstructionsDisplay hidden;
         resultContainerClassList := resultContainerClassList hidden;
         gameStatusText := gameStatusText hidden;
         gameInstructionsText := gameInstructionsText hidden |}
  | WAITING =>
      {| bodyClassList := bodyClassList hidden;
         startButtonDisplay := startButtonDisplay hidden;
         gameStatusDisplay := "block";
         gameInstructionsDisplay := "block";
         resultContainerClassList := resultContainerClassList hidden;
         gameStatusText := "準備中...";
         gameInstructionsText := "等待背景變成綠色" |}
  | READY =>
      {| bodyClassList := bodyClassList hidden;
         startButtonDisplay := startButtonDisplay hidden;
         gameStatusDisplay := "block";
         gameInstructionsDisplay := "block";
         resultContainerClassList := resultContainerClassList hidden;
         gameStatusText := "點擊！";
         gameInstructionsText := "盡快點擊畫面任何地方" |}
  | RESULT =>
      {| bodyClassList := bodyClassList hidden;
         startButtonDisplay := startButtonDisplay hidden;
         gameStatusDisplay := gameStatusDisplay hidden;
         gameInstructionsDisplay := gameInstructionsDisplay hidden;
         resultContainerClassList := resultContainerClassList hidden ∪ {[ "show" ]};
         gameStatusText := gameStatusText hidden;
         gameInstructionsText := gameInstructionsText hidden |}
  | ERROR =>
      {| bodyClassList := bodyClassList hidden;
         startButtonDisplay := startButtonDisplay hidden;
         gameStatusDisplay := "block";
         gameInstructionsDisplay := "block";
         resultContainerClassList := resultContainerClassList hidden;
         gameStatusText := "😅 太快了！";
         gameInstructionsText := "等待背景變成綠色再點擊" |}
  end.

(** What [setState] does to the elements: the class of every state is
    removed from the body, the class of the new state is added, and
    [updateUI] runs. *)
Definition setState_view (newState : GameState) (v : View) : View :=
  let classes :=
    fold_left (fun c state => c ∖ {[ GameStates state ]}) stateValues
      (bodyClassList v) in
  let classes := classes ∪ {[ GameStates newState ]} in
  updateUI_view newState
    {| bodyClassList := classes;
       startButtonDisplay := startButtonDisplay v;
       gameStatusDisplay := gameStatusDisplay v;
       gameInstructionsDisplay := gameInstructionsDisplay v;
       resultContainerClassList := resultContainerClassList v;
       gameStatusText := gameStatusText v;
       gameInstructionsText := gameInstructionsText v |}.

(** A page as it might be before the script runs. *)
Definition demo_view : View :=
  {| bodyClassList := {[ "dark"; "result" ]};
     startButtonDisplay := EmptyString;
     gameStatusDisplay := EmptyString;
     gameInstructionsDisplay := EmptyString;
     resultContainerClassList := {[ "show"; "card" ]};
     gameStatusText := EmptyString;
     gameInstructionsText := EmptyString |}.

(** ** Facts about the built-ins *)

Example parseInt_examples :
  parseInt "180" = Num 180 /\ parseInt "  -42px" = Num (-42)
  /\ parseInt "0x1F" = Num 31 /\ parseInt "abc" = NaN
  /\ parseInt "-" = NaN /\ parseInt "007" = Num 7.
Proof. repeat split; reflexivity. Qed.

Example toString_examples :
  toString 1730563200123 = "1730563200123" /\ toString (-5) = "-5"
  /\ toString 0 = "0" /\ toFixed0 (2469 # 2)%Q = "1235".
Proof. repeat split; reflexivity. Qed.

Ltac digit_cases d H :=
  let E := fresh "E" in
  assert (E : d = 0 \/ d = 1 \/ d = 2 \/ d = 3 \/ d = 4 \/ d = 5 \/ d = 6
              \/ d = 7 \/ d = 8 \/ d = 9) by (unfold is_digit in H; lia);
  repeat (destruct E as [E | E]); subst d.

Lemma digit_value_digit_char d :
  is_digit d -> digit_value 10 (digit_char d) = Some d.
Proof. intros H. digit_cases d H; reflexivity. Qed.

Lemma take_digits_string_of_digits ds :
  Forall is_digit ds -> take_digits 10 (string_of_digits ds) = ds.
Proof.
  induction 1 as [|d ds Hd _ IH]; [reflexivity|].
  unfold string_of_digits in *. cbn [map string_of_list_ascii take_digits].
  rewrite digit_value_digit_char by assumption. now rewrite IH.
Qed.

Lemma digits_value_snoc r ds d :
  digits_value r (ds ++ [d]) = digits_value r ds * r + d.
Proof. unfold digits_value. now rewrite fold_left_app. Qed.

Lemma to_digits_spec fuel : forall n,
  0 < n < 10 ^ Z.of_nat fuel ->
  Forall is_digit (to_digits fuel n) /\ to_digits fuel n <> []
  /\ digits_value 10 (to_digits fuel n) = n.
Proof.
  induction fuel as [|f IH]; intros n Hn.
  - change (10 ^ Z.of_nat 0) with 1 in Hn. lia.
  - cbn [to_digits].
    assert (Hm : is_digit (n mod 10)) by (unfold is_digit; apply Z.mod_pos_bound; lia).
    destruct (Z.eqb_spec (n / 10) 0) as [Hq | Hq].
    + split; [constructor; [exact Hm | constructor] | split; [discriminate |]].
      unfold digits_value; cbn. rewrite (Z.div_mod n 10) at 2 by lia. lia.
    + assert (Hq' : 0 < n / 10 < 10 ^ Z.of_nat f).
      { split.
        - assert (0 <= n / 10) by (apply Z.div_pos; lia). lia.
        - apply Z.div_lt_upper_bound; [lia|].
          rewrite Nat2Z.inj_succ, Z.pow_succ_r in Hn by lia. lia. }
      destruct (IH _ Hq') as (Hall & Hne & Hval).
      split; [|split].
      * apply Forall_app; split; [exact Hall | constructor; [exact Hm | constructor]].
      * destruct (to_digits f (n / 10)); [congruence | discriminate].
      * rewrite digits_value_snoc, Hval. rewrite (Z.div_mod n 10) at 3 by lia. lia.
Qed.

Lemma digits_of_nonneg_spec n :
  0 <= n ->
  Forall is_digit (digits_of_nonneg n) /\ digits_of_nonneg n <> []
  /\ digits_value 10 (digits_of_nonneg n) = n.
Proof.
  intros Hn. unfold digits_of_nonneg.
  destruct (Z.eq_dec n 0) as [-> | Hnz].
  - change (to_digits (S (Z.to_nat (Z.log2 0))) 0) with [0].
    split; [constructor; [unfold is_digit; lia | constructor] | split; [discriminate | reflexivity]].
  - apply to_digits_spec. split; [lia|].
    assert (H2 : n < 2 ^ Z.succ (Z.log2 n)) by (apply Z.log2_spec; lia).
    rewrite Nat2Z.inj_succ, Z2Nat.id by apply Z.log2_nonneg.
    eapply Z.lt_le_trans; [exact H2|].
    apply Z.pow_le_mono_l. split; [lia|lia].
Qed.

Lemma trim_start_digit d r :
  is_digit d -> trim_start (String (digit_char d) r) = String (digit_char d) r.
Proof.
  intros H. digit_cases d H;
    (destruct r as [|c2 [|c3 r3]]; reflexivity).
Qed.

Lemma strip_sign_digit d r :
  is_digit d -> strip_sign (String (digit_char d) r) = (1, String (digit_char d) r).
Proof. intros H. digit_cases d H; reflexivity. Qed.

Lemma strip_prefix_digits ds :
  Forall is_digit ds -> strip_prefix (string_of_digits ds) = (10, string_of_digits ds).
Proof.
  intros H. destruct H as [|d ds Hd Hds]; [reflexivity|].
  destruct Hds as [|d2 ds2 Hd2 _].
  - digit_cases d Hd; reflexivity.
  - digit_cases d Hd; try reflexivity.
    digit_cases d2 Hd2; reflexivity.
Qed.

Lemma parseInt_digits ds :
  Forall is_digit ds -> ds <> [] ->
  parseInt (string_of_digits ds) = Num (digits_value 10 ds).
Proof.
  intros Hds Hne. unfold parseInt.
  destruct Hds as [|d ds Hd Hds]; [congruence|].
  change (string_of_digits (d :: ds))
    with (String (digit_char d) (string_of_digits ds)).
  rewrite trim_start_digit, strip_sign_digit by assumption.
  change (String (digit_char d) (string_of_digits ds))
    with (string_of_digits (d :: ds)).
  rewrite strip_prefix_digits, take_digits_string_of_digits
    by (constructor; assumption).
  f_equal. lia.
Qed.

Lemma parseInt_minus_digits ds :
  Forall is_digit ds -> ds <> [] ->
  parseInt (String "-" (string_of_digits ds)) = Num (- digits_value 10 ds).
Proof.
  intros Hds Hne. unfold parseInt.
  assert (Ht : trim_start (String "-" (string_of_digits ds))
               = String "-" (string_of_digits ds))
    by (destruct (string_of_digits ds) as [|c2 [|c3 r3]]; reflexivity).
  rewrite Ht. cbn [strip_sign].
  rewrite strip_prefix_digits, take_digits_string_of_digits by assumption.
  destruct ds; [congruence|]. f_equal; lia.
Qed.

Lemma parseInt_toString v : parseInt (toString v) = Num v.
Proof.
  unfold toString. destruct (Z.ltb_spec v 0) as [Hneg | Hpos].
  - destruct (digits_of_nonneg_spec (- v)) as (Hall & Hne & Hval); [lia|].
    rewrite parseInt_minus_digits, Hval by assumption. f_equal. lia.
  - destruct (digits_of_nonneg_spec v) as (Hall & Hne & Hval); [lia|].
    now rewrite parseInt_digits, Hval.
Qed.

Lemma toString_nonempty v : toString v <> EmptyString.
Proof.
  unfold toString. destruct (v <? 0); [discriminate|].
  destruct (Z.le_gt_cases 0 v) as [Hv | Hv].
  - destruct (digits_of_nonneg_spec v Hv) as (_ & Hne & _).
    destruct (digits_of_nonneg v); [congruence | discriminate].
  - unfold digits_of_nonneg. destruct v; try lia.
    cbn [to_digits Z.log2 Z.to_nat].
    destruct (_ =? 0); [discriminate|].
    destruct (to_digits _ _); discriminate.
Qed.

(** ** The invariant of the timers *)

Ltac fields :=
  cbn [currentState startTime reactionTime waitTimeout bestScore
       reactionTimeElement resultMessage bestScoreElement timers nextTimerId
       localStorage console
       set_currentState set_startTime set_reactionTime set_waitTimeout
       set_bestScore set_reactionTimeElement set_resultMessage
       set_bestScoreElement set_timers set_nextTimerId set_localStorage
       set_console console_log console_error setTimeout clearTimeout
       setItem getItem fst snd callback delay] in *.

Lemma truthy_int_handle w h :
  wf w -> waitTimeout w = Some h -> truthy_int (waitTimeout w) = true.
Proof.
  intros Hwf Hh. apply (wf_handle _ Hwf) in Hh as Hr. rewrite Hh. cbn.
  destruct (Z.eqb_spec h 0); [lia | reflexivity].
Qed.


Lemma resetGame_wf w : wf w -> wf (resetGame w).
Proof.
  intros Hwf. unfold resetGame, setState, updateUI. fields.
  destruct (waitTimeout w) as [h|] eqn:Hh.
  - rewrite <- Hh, (truthy_int_handle w h Hwf Hh), Hh. fields.
    destruct Hwf as [Hn Ht Hw Htr Hst Hd].
    split; fields; rewrite ?Hh; auto; try (intros; discriminate).
    + intros h' t Hl. apply lookup_delete_Some in Hl as [_ Hl]. eauto.
    + intros h' t Hl Hcb. apply lookup_delete_Some in Hl as [Hne Hl].
      destruct (Htr _ _ Hl Hcb) as [_ E]. congruence.
  - cbn [truthy_int]. fields. destruct Hwf as [Hn Ht Hw Htr Hst Hd].
    split; fields; rewrite ?Hh; auto; try (intros; discriminate).
    intros h' t Hl Hcb. destruct (Htr _ _ Hl Hcb) as [_ E]. congruence.
Qed.

Lemma handleEarlyClick_wf w : wf w -> wf (handleEarlyClick w).
Proof.
  intros Hwf. unfold handleEarlyClick, setState, updateUI. fields.
  destruct (waitTimeout w) as [h|] eqn:Hh.
  - rewrite <- Hh, (truthy_int_handle w h Hwf Hh), Hh. fields.
    destruct Hwf as [Hn Ht Hw Htr Hst Hd].
    split; fields; rewrite ?Hh; auto; try (intros; discriminate); try lia.
    + intros h' t Hl. apply lookup_insert_Some in Hl as [[<- _] | [_ Hl]]; [lia|].
      apply lookup_delete_Some in Hl as [_ Hl]. apply Ht in Hl. lia.
    + intros h' t Hl Hcb.
      apply lookup_insert_Some in Hl as [[_ <-] | [_ Hl]]; [discriminate|].
      apply lookup_delete_Some in Hl as [Hne Hl].
      destruct (Htr _ _ Hl Hcb) as [_ E]. congruence.
  - cbn [truthy_int]. fields. destruct Hwf as [Hn Ht Hw Htr Hst Hd].
    split; fields; rewrite ?Hh; auto; try (intros; discriminate); try lia.
    + intros h' t Hl. apply lookup_insert_Some in Hl as [[<- _] | [_ Hl]]; [lia|].
      apply Ht in Hl. lia.
    + intros h' t Hl Hcb.
      apply lookup_insert_Some in Hl as [[_ <-] | [_ Hl]]; [discriminate|].
      destruct (Htr _ _ Hl Hcb) as [_ E]. congruence.
Qed.

Lemma startGame_wf rnd w : wf w -> wf (startGame rnd w).
Proof.
  intros Hwf. unfold startGame, setState, updateUI. fields.
  destruct (waitTimeout w) as [h|] eqn:Hh.
  - rewrite <- Hh, (truthy_int_handle w h Hwf Hh), Hh. fields.
    destruct Hwf as [Hn Ht Hw Htr Hst Hd].
    split; fields; rewrite ?Hh; auto; try lia.
    + intros h' t Hl. apply lookup_insert_Some in Hl as [[<- _] | [_ Hl]]; [lia|].
      apply lookup_delete_Some in Hl as [_ Hl]. apply Ht in Hl. lia.
    + intros h' [= <-]. lia.
    + intros h' t Hl Hcb.
      apply lookup_insert_Some in Hl as [[<- _] | [_ Hl]]; [auto|].
      apply lookup_delete_Some in Hl as [Hne Hl].
      destruct (Htr _ _ Hl Hcb) as [_ E]. congruence.
    + eexists _, _. split; [reflexivity|]. split; [apply lookup_insert_eq | reflexivity].
  - cbn [truthy_int]. fields. destruct Hwf as [Hn Ht Hw Htr Hst Hd].
    split; fields; rewrite ?Hh; auto; try lia.
    + intros h' t Hl. apply lookup_insert_Some in Hl as [[<- _] | [_ Hl]]; [lia|].
      apply Ht in Hl. lia.
    + intros h' [= <-]. lia.
    + intros h' t Hl Hcb.
      apply lookup_insert_Some in Hl as [[<- _] | [_ Hl]]; [auto|].
      destruct (Htr _ _ Hl Hcb) as [_ E]. congruence.
    + eexists _, _. split; [reflexivity|]. split; [apply lookup_insert_eq | reflexivity].
Qed.

Lemma handleReactionClick_wf now w :
  wf w -> currentState w = READY -> wf (handleReactionClick now w).
Proof.
  intros Hwf Hs. unfold handleReactionClick.
  destruct (truthy_int (startTime w)); cbn [negb].
  - cbv zeta. fields.
    destruct (negb (truthy (bestScore w)) || less_than _ (bestScore w));
      unfold showResult, saveBestScore, updateBestScoreDisplay, setState, updateUI;
      fields; destruct Hwf as [Hn Ht Hw Htr Hst Hd]; rewrite Hs in Hst, Hd;
      (split; fields; rewrite ?Hh; auto;
       [ intros h' t Hl Hcb; destruct (Htr _ _ Hl Hcb) as [E _]; congruence
       | split; [exact Hd | eexists; reflexivity] ]).
  - destruct Hwf as [Hn Ht Hw Htr Hst Hd]. split; fields; auto.
Qed.

Lemma handleBodyClick_wf tag now w : wf w -> wf (handleBodyClick tag now w).
Proof.
  intros Hwf. unfold handleBodyClick. destruct (String.eqb tag "BUTTON"); [exact Hwf|].
  destruct (currentState w) eqn:Hs; auto using handleEarlyClick_wf, handleReactionClick_wf.
Qed.

Lemma fire_trigger_wf now h t w :
  wf w -> timers w !! h = Some t -> callback t = TriggerCallback ->
  wf (triggerCallback now (set_timers (delete h (timers w)) w)).
Proof.
  intros Hwf Hl Hcb. destruct (wf_trigger _ Hwf _ _ Hl Hcb) as [Hs Hh].
  unfold triggerCallback. fields. rewrite Hs.
  destruct (decide (WAITING = WAITING)) as [_|]; [|congruence].
  unfold setState, updateUI. fields.
  destruct Hwf as [Hn Ht Hw Htr Hst Hd].
  split; fields; auto.
  - intros h' t' Hl'. apply lookup_delete_Some in Hl' as [_ Hl']. eauto.
  - intros h' t' Hl' Hcb'. apply lookup_delete_Some in Hl' as [Hne Hl'].
    destruct (Htr _ _ Hl' Hcb') as [_ E]. congruence.
  - exists h. split; [assumption | apply lookup_delete_eq].
  - eexists; reflexivity.
Qed.

Lemma fire_autoreset_wf h t w :
  wf w -> timers w !! h = Some t -> callback t = AutoResetCallback ->
  wf (resetGame (set_timers (delete h (timers w)) w)).
Proof.
  intros Hwf Hl Hcb. apply resetGame_wf.
  destruct Hwf as [Hn Ht Hw Htr Hst Hd].
  split; fields; auto.
  - intros h' t' Hl'. apply lookup_delete_Some in Hl' as [_ Hl']. eauto.
  - intros h' t' Hl' Hcb'. apply lookup_delete_Some in Hl' as [Hne Hl']. eauto.
  - destruct (currentState w); auto.
    + destruct Hst as (h0 & t0 & E1 & E2 & E3). exists h0, t0.
      split; [assumption|]. split; [|assumption].
      rewrite lookup_delete_ne; [assumption|]. intros ->. congruence.
    + destruct Hst as (h0 & E1 & E2). exists h0. split; [assumption|].
      apply lookup_delete_None. auto.
    + destruct Hst as (h0 & E1 & E2). exists h0. split; [assumption|].
      apply lookup_delete_None. auto.
Qed.

Lemma step_wf now e w : wf w -> wf (step now e w).
Proof.
  intros Hwf. destruct e as [rnd| |tag|h]; cbn [step].
  - apply handleBodyClick_wf, startGame_wf, Hwf.
  - apply handleBodyClick_wf, resetGame_wf, Hwf.
  - apply handleBodyClick_wf, Hwf.
  - destruct (timers w !! h) as [t|] eqn:Hl; [|exact Hwf].
    destruct (callback t) eqn:Hcb; cbn [runCallback].
    + eapply fire_trigger_wf; eassumption.
    + eapply fire_autoreset_wf; eassumption.
Qed.

Lemma boot_wf p : valid_page p -> wf (boot p).
Proof.
  intros Hp. unfold boot, init, updateBestScoreDisplay, setState, updateUI. fields.
  split; fields; auto.
  - intros h t Hl. rewrite lookup_empty in Hl. discriminate.
  - intros; discriminate.
  - intros h t Hl. rewrite lookup_empty in Hl. discriminate.
Qed.

Lemma reachable_wf w : reachable w -> wf w.
Proof.
  induction 1 as [p Hp | now e w _ IH]; [apply boot_wf, Hp | apply step_wf, IH].
Qed.

(** ** The click handler *)

Lemma eqb_BUTTON tagName :
  tagName <> "BUTTON" -> String.eqb tagName "BUTTON" = false.
Proof. intros H. now apply String.eqb_neq. Qed.

Lemma setState_currentState s w : currentState (setState s w) = s.
Proof. unfold setState, updateUI. fields. now destruct s. Qed.

Lemma handleEarlyClick_currentState w :
  currentState (handleEarlyClick w) = ERROR.
Proof. unfold handleEarlyClick. apply setState_currentState. Qed.

Lemma triggerCallback_guard now w :
  currentState w <> WAITING -> triggerCallback now w = w.
Proof.
  intros H. unfold triggerCallback.
  destruct (decide (currentState w = WAITING)); [contradiction | reflexivity].
Qed.

(** C1: a click processed in WAITING, before the trigger callback, moves the
    game to ERROR and not to READY; the callback, if it runs afterwards,
    changes nothing, since it acts only in WAITING. *)
Theorem early_click_gives_error (now : Z) (tagName : string) (w : World) :
  currentState w = WAITING -> tagName <> "BUTTON" ->
  let w' := step now (BodyClick tagName) w in
  currentState w' = ERROR
  /\ currentState w' <> READY
  /\ (forall now', triggerCallback now' w' = w')
  /\ (forall now' w0, currentState w0 <> WAITING -> triggerCallback now' w0 = w0).
Proof.
  intros Hs Htag w'.
  assert (He : currentState w' = ERROR).
  { subst w'. cbn [step]. unfold handleBodyClick.
    rewrite (eqb_BUTTON _ Htag), Hs. apply handleEarlyClick_currentState. }
  split; [exact He|]. split; [congruence|]. split.
  - intros now'. apply triggerCallback_guard. congruence.
  - intros now' w0. apply triggerCallback_guard.
Qed.

Lemma early_click_gives_error_witness :
  currentState demo_waiting = WAITING
  /\ currentState (step 1500 (BodyClick "DIV") demo_waiting) = ERROR
  /\ triggerCallback 3000 (step 1500 (BodyClick "DIV") demo_waiting)
     = step 1500 (BodyClick "DIV") demo_waiting.
Proof.
  assert (Hs : currentState demo_waiting = WAITING) by (vm_compute; reflexivity).
  assert (Ht : "DIV" <> "BUTTON") by discriminate.
  pose proof (early_click_gives_error 1500 "DIV" demo_waiting Hs Ht) as H.
  cbv zeta in H. destruct H as (H1 & _ & H3 & _).
  split; [exact Hs|]. split; [exact H1 | exact (H3 3000)].
Defined.

(** X12: in a reachable state the click has also cancelled the trigger: no
    timer is pending under the old handle afterwards, and that handle
    fires nothing. *)
Lemma early_click_cancels_trigger now now' tagName w h :
  reachable w -> currentState w = WAITING -> tagName <> "BUTTON" ->
  waitTimeout w = Some h ->
  let w' := step now (BodyClick tagName) w in
  timers w' !! h = None /\ step now' (TimerFires h) w' = w'.
Proof.
  intros Hr Hs Htag Hh w'.
  assert (Hl : timers w' !! h = None).
  { apply reachable_wf in Hr. subst w'. cbn [step]. unfold handleBodyClick.
    rewrite (eqb_BUTTON _ Htag), Hs.
    unfold handleEarlyClick, setState, updateUI. fields.
    rewrite (truthy_int_handle w h Hr Hh), Hh. fields.
    rewrite lookup_insert_ne, lookup_delete_eq; [reflexivity|].
    apply (wf_handle _ Hr) in Hh. lia. }
  split; [exact Hl|]. cbn [step]. now rewrite Hl.
Qed.




(** C8: a click in READY without a recorded start time is detected and
    logged with [console.error]; nothing else happens: the state, the start
    time, the reaction time, the best score and its stored text stay as
    they were, and the handler returns normally. *)
Theorem missing_startTime_is_dropped (now : Z) (tagName : string) (w : World) :
  currentState w = READY -> truthy_int (startTime w) = false ->
  tagName <> "BUTTON" ->
  let w' := step now (BodyClick tagName) w in
  w' = console_error "開始時間未設定" w
  /\ console w' = (console w ++ [Error "開始時間未設定"])%list
  /\ currentState w' = currentState w
  /\ startTime w' = startTime w
  /\ reactionTime w' = reactionTime w
  /\ bestScore w' = bestScore w
  /\ localStorage w' = localStorage w
  /\ waitTimeout w' = waitTimeout w
  /\ timers w' = timers w.
Proof.
  intros Hs Hf Htag w'.
  assert (E : w' = console_error "開始時間未設定" w).
  { subst w'. cbn [step]. unfold handleBodyClick.
    rewrite (eqb_BUTTON _ Htag), Hs. unfold handleReactionClick.
    now rewrite Hf. }
  split; [exact E|]. rewrite E. repeat split.
Qed.

(** X13: in a reachable READY state the start time is never null: the
    guard can only fail there on the clock value 0. *)
Lemma missing_startTime_only_at_zero w :
  reachable w -> currentState w = READY ->
  truthy_int (startTime w) = false -> startTime w = Some 0.
Proof.
  intros Hr Hs Hf. apply reachable_wf in Hr.
  pose proof (wf_data _ Hr) as Hd. rewrite Hs in Hd.
  destruct Hd as [t0 Ht0]. rewrite Ht0 in Hf |- *. cbn in Hf.
  destruct (Z.eqb_spec t0 0); [congruence | discriminate].
Qed.

Lemma missing_startTime_is_dropped_witness :
  currentState demo_ready_at_zero = READY
  /\ step 250 (BodyClick "DIV") demo_ready_at_zero
     = console_error "開始時間未設定" demo_ready_at_zero.
Proof.
  assert (Hs : currentState demo_ready_at_zero = READY)
    by (vm_compute; reflexivity).
  assert (Hf : truthy_int (startTime demo_ready_at_zero) = false)
    by (vm_compute; reflexivity).
  assert (Htag : "DIV" <> "BUTTON") by discriminate.
  pose proof (missing_startTime_is_dropped 250 "DIV" demo_ready_at_zero
                Hs Hf Htag) as H.
  cbv zeta in H. destruct H as (H1 & _).
  split; [exact Hs | exact H1].
Defined.

(** C9: a click while the game is in START, RESULT or ERROR changes
    nothing at all: [handleBodyClick] has cases for WAITING and READY
    only. *)
Theorem click_outside_round_is_ignored (now : Z) (tagName : string) (w : World) :
  currentState w = START \/ currentState w = RESULT \/ currentState w = ERROR ->
  step now (BodyClick tagName) w = w.
Proof.
  intros Hs. cbn [step]. unfold handleBodyClick.
  destruct (String.eqb tagName "BUTTON"); [reflexivity|].
  destruct Hs as [-> | [-> | ->]]; reflexivity.
Qed.

Lemma click_outside_round_is_ignored_witness :
  step 9000 (BodyClick "DIV") demo_result = demo_result
  /\ step 9000 (BodyClick "DIV") demo_error = demo_error
  /\ step 9000 (BodyClick "DIV") (boot demo_page) = boot demo_page.
Proof.
  split; [|split].
  - apply (click_outside_round_is_ignored 9000 "DIV" demo_result).
    right; left. vm_compute; reflexivity.
  - apply (click_outside_round_is_ignored 9000 "DIV" demo_error).
    right; right. vm_compute; reflexivity.
  - apply (click_outside_round_is_ignored 9000 "DIV" (boot demo_page)).
    left. vm_compute; reflexivity.
Defined.

(** C10: when the start time is the clock value 0, the guard
    [!this.startTime] takes it for a missing one: the click in READY only
    logs the error, the game stays in READY and no reaction time, best
    score or message is recorded. *)
Theorem zero_startTime_counts_as_missing (now : Z) (tagName : string) (w : World) :
  currentState w = READY -> startTime w = Some 0 -> tagName <> "BUTTON" ->
  let w' := step now (BodyClick tagName) w in
  currentState w' = READY
  /\ reactionTime w' = reactionTime w
  /\ bestScore w' = bestScore w
  /\ localStorage w' = localStorage w
  /\ resultMessage w' = resultMessage w
  /\ reactionTimeElement w' = reactionTimeElement w
  /\ console w' = (console w ++ [Error "開始時間未設定"])%list.
Proof.
  intros Hs Hz Htag w'. subst w'. cbn [step]. unfold handleBodyClick.
  rewrite (eqb_BUTTON _ Htag), Hs. unfold handleReactionClick.
  rewrite Hz. cbn [truthy_int Z.eqb negb]. fields. now rewrite Hs.
Qed.

Lemma zero_startTime_counts_as_missing_witness :
  startTime demo_ready_at_zero = Some 0
  /\ currentState (step 250 (BodyClick "DIV") demo_ready_at_zero) = READY
  /\ reactionTime (step 250 (BodyClick "DIV") demo_ready_at_zero) = None.
Proof.
  assert (Hs : currentState demo_ready_at_zero = READY)
    by (vm_compute; reflexivity).
  assert (Hz : startTime demo_ready_at_zero = Some 0)
    by (vm_compute; reflexivity).
  assert (Htag : "DIV" <> "BUTTON") by discriminate.
  pose proof (zero_startTime_counts_as_missing 250 "DIV" demo_ready_at_zero
                Hs Hz Htag) as H.
  cbv zeta in H. destruct H as (H1 & H2 & _).
  split; [exact Hz|]. split; [exact H1|]. rewrite H2. vm_compute; reflexivity.
Defined.

(** ** The result message *)

(** C4: the message is the one of the bracket the time falls in, below 200,
    below 300, below 500 or above, followed by the record notice exactly
    when [isNewRecord] holds; it depends on the two arguments only. *)
Theorem getResultMessage_brackets (time : Z) (isNewRecord : bool) :
  (time < 200 -> getResultMessage time false = "🚀 超快反應！")
  /\ (200 <= time < 300 -> getResultMessage time false = "⚡ 反應很棒！")
  /\ (300 <= time < 500 -> getResultMessage time false = "👍 表現不錯！")
  /\ (500 <= time -> getResultMessage time false = "🐌 還有進步空間")
  /\ getResultMessage time true = getResultMessage time false ++ newRecordNotice
  /\ getResultMessage time isNewRecord
     = getResultMessage time false
       ++ (if isNewRecord then newRecordNotice else EmptyString)
  /\ getResultMessage time true <> getResultMessage time false.
Proof.
  unfold getResultMessage.
  destruct (Z.ltb_spec time 200); [|destruct (Z.ltb_spec time 300);
    [|destruct (Z.ltb_spec time 500)]];
    (repeat split; try (intros; lia); try reflexivity;
     try (destruct isNewRecord; reflexivity); try discriminate).
Qed.

Lemma getResultMessage_brackets_witness :
  getResultMessage 150 false = "🚀 超快反應！"
  /\ getResultMessage 450 true = "👍 表現不錯！" ++ newRecordNotice.
Proof.
  destruct (getResultMessage_brackets 150 false) as (H1 & _).
  destruct (getResultMessage_brackets 450 true) as (_ & _ & H3 & _ & H5 & _).
  split; [apply H1; lia|]. rewrite H5, H3 by lia. reflexivity.
Defined.

(** ** The timers *)

(** C6, as amended: in every reachable state [waitTimeout] is null in START
    and ERROR and non-null in WAITING, READY and RESULT.  In WAITING it is
    the handle of the pending trigger; READY and RESULT keep the handle of
    the trigger that has fired, under which nothing is pending.  A trigger
    timer is pending only in WAITING and only under [waitTimeout]: whatever
    supersedes it has cancelled it. *)
Theorem waitTimeout_by_state (w : World) :
  reachable w ->
  match currentState w with
  | START | ERROR => waitTimeout w = None
  | WAITING =>
      exists h t, waitTimeout w = Some h /\ timers w !! h = Some t
                  /\ callback t = TriggerCallback
  | READY | RESULT =>
      exists h, waitTimeout w = Some h /\ timers w !! h = None
  end
  /\ (forall h t, timers w !! h = Some t -> callback t = TriggerCallback ->
        currentState w = WAITING /\ waitTimeout w = Some h).
Proof.
  intros Hr. apply reachable_wf in Hr.
  split; [apply (wf_state _ Hr) | apply (wf_trigger _ Hr)].
Qed.

Lemma demo_ready_reachable : reachable demo_ready.
Proof.
  unfold demo_ready, demo_waiting. do 2 apply reachable_step.
  apply reachable_boot. unfold valid_page. cbn. lia.
Defined.

Lemma waitTimeout_by_state_witness :
  exists h, waitTimeout demo_ready = Some h /\ timers demo_ready !! h = None.
Proof.
  pose proof (waitTimeout_by_state demo_ready demo_ready_reachable) as [H _].
  exact H.
Defined.

(** C6, as stated, fails: after the trigger has fired the game is in READY
    and [waitTimeout] still holds the handle. *)
Lemma handle_kept_in_ready : ~ handle_only_waiting_or_error.
Proof.
  intros H. specialize (H demo_ready demo_ready_reachable).
  assert (Hw : waitTimeout demo_ready <> None) by (vm_compute; intros E; discriminate E).
  destruct (H Hw) as [E | E]; vm_compute in E; discriminate.
Qed.

Lemma auto_reset_not_waitTimeout w h t :
  wf w -> timers w !! h = Some t -> callback t = AutoResetCallback ->
  waitTimeout w <> Some h.
Proof.
  intros Hwf Hl Hcb Hh. pose proof (wf_state _ Hwf) as Hst.
  destruct (currentState w).
  - congruence.
  - destruct Hst as (h0 & t0 & E1 & E2 & E3). congruence.
  - destruct Hst as (h0 & E1 & E2). congruence.
  - destruct Hst as (h0 & E1 & E2). congruence.
  - congruence.
Qed.

Lemma resetGame_keeps_auto_reset w h t :
  wf w -> timers w !! h = Some t -> callback t = AutoResetCallback ->
  timers (resetGame w) !! h = Some t.
Proof.
  intros Hwf Hl Hcb. pose proof (auto_reset_not_waitTimeout w h t Hwf Hl Hcb) as Hne.
  unfold resetGame, setState, updateUI. fields.
  destruct (waitTimeout w) as [h0|] eqn:Hh.
  - rewrite <- Hh, (truthy_int_handle w h0 Hwf Hh), Hh. fields.
    rewrite lookup_delete_ne; [exact Hl | congruence].
  - cbn [truthy_int]. fields. exact Hl.
Qed.

Lemma startGame_keeps_timer rnd w h t :
  wf w -> timers w !! h = Some t -> waitTimeout w <> Some h ->
  timers (startGame rnd w) !! h = Some t.
Proof.
  intros Hwf Hl Hne. pose proof (wf_timers _ Hwf _ _ Hl) as Hlt.
  unfold startGame, setState, updateUI. fields.
  destruct (waitTimeout w) as [h0|] eqn:Hh.
  - rewrite <- Hh, (truthy_int_handle w h0 Hwf Hh), Hh. fields.
    rewrite lookup_insert_ne by lia.
    rewrite lookup_delete_ne; [exact Hl | congruence].
  - cbn [truthy_int]. fields. rewrite lookup_insert_ne by lia. exact Hl.
Qed.

Lemma handleEarlyClick_keeps_timer w h t :
  wf w -> timers w !! h = Some t -> waitTimeout w <> Some h ->
  timers (handleEarlyClick w) !! h = Some t.
Proof.
  intros Hwf Hl Hne. pose proof (wf_timers _ Hwf _ _ Hl) as Hlt.
  unfold handleEarlyClick, setState, updateUI. fields.
  destruct (waitTimeout w) as [h0|] eqn:Hh.
  - rewrite <- Hh, (truthy_int_handle w h0 Hwf Hh), Hh. fields.
    rewrite lookup_insert_ne by lia.
    rewrite lookup_delete_ne; [exact Hl | congruence].
  - cbn [truthy_int]. fields. rewrite lookup_insert_ne by lia. exact Hl.
Qed.

Lemma handleReactionClick_timers now w :
  timers (handleReactionClick now w) = timers w.
Proof.
  unfold handleReactionClick. destruct (truthy_int (startTime w)); cbn [negb].
  - cbv zeta. fields.
    destruct (negb (truthy (bestScore w)) || less_than _ (bestScore w));
      unfold showResult, saveBestScore, updateBestScoreDisplay, setState, updateUI;
      fields; reflexivity.
  - reflexivity.
Qed.

Lemma handleBodyClick_keeps_timer tagName now w h t :
  wf w -> timers w !! h = Some t -> waitTimeout w <> Some h ->
  timers (handleBodyClick tagName now w) !! h = Some t.
Proof.
  intros Hwf Hl Hne. unfold handleBodyClick.
  destruct (String.eqb tagName "BUTTON"); [exact Hl|].
  destruct (currentState w); try exact Hl.
  - now apply handleEarlyClick_keeps_timer.
  - now rewrite handleReactionClick_timers.
Qed.

Lemma handleBodyClick_BUTTON now w : handleBodyClick "BUTTON" now w = w.
Proof. reflexivity. Qed.

Lemma step_keeps_auto_reset now e w h t :
  wf w -> timers w !! h = Some t -> callback t = AutoResetCallback ->
  e <> TimerFires h -> timers (step now e w) !! h = Some t.
Proof.
  intros Hwf Hl Hcb He.
  pose proof (auto_reset_not_waitTimeout w h t Hwf Hl Hcb) as Hne.
  destruct e as [rnd| |tagName|h2]; cbn [step].
  - rewrite handleBodyClick_BUTTON. now apply startGame_keeps_timer.
  - rewrite handleBodyClick_BUTTON. now apply resetGame_keeps_auto_reset.
  - now apply handleBodyClick_keeps_timer.
  - destruct (timers w !! h2) as [t2|] eqn:Hl2; [|exact Hl].
    assert (Hh2 : h2 <> h) by congruence.
    destruct (callback t2) eqn:Hcb2; cbn [runCallback].
    + destruct (wf_trigger _ Hwf _ _ Hl2 Hcb2) as [Hs Hw].
      unfold triggerCallback. fields. rewrite Hs.
      destruct (decide (WAITING = WAITING)) as [_|]; [|congruence].
      unfold setState, updateUI. fields. now rewrite lookup_delete_ne.
    + unfold resetGame, setState, updateUI. fields.
      destruct (waitTimeout w) as [h0|] eqn:Hh.
      * rewrite <- Hh, (truthy_int_handle w h0 Hwf Hh), Hh. fields.
        rewrite !lookup_delete_ne; [exact Hl | exact Hh2 | congruence].
      * cbn [truthy_int]. fields. now rewrite lookup_delete_ne.
Qed.

(** C5, as amended: nothing cancels the auto-reset of ERROR, whose handle
    is not kept.  The timer stays pending through every event but its own
    firing; in particular a reset in ERROR leads to START with the timer
    still pending.  When it fires in START it runs [resetGame] once more,
    which leaves the state, the times, the handle and the best score as
    they are. *)
Theorem auto_reset_stays_pending (now : Z) (e : Event) (w : World) (h : Z) (t : Timer) :
  reachable w -> timers w !! h = Some t -> callback t = AutoResetCallback ->
  (e <> TimerFires h -> timers (step now e w) !! h = Some t)
  /\ (currentState w = ERROR ->
      currentState (step now PlayAgainButtonClick w) = START
      /\ timers (step now PlayAgainButtonClick w) !! h = Some t)
  /\ (currentState w = START ->
      let w' := step now (TimerFires h) w in
      currentState w' = START /\ startTime w' = startTime w
      /\ reactionTime w' = reactionTime w /\ waitTimeout w' = waitTimeout w
      /\ bestScore w' = bestScore w /\ localStorage w' = localStorage w
      /\ timers w' = delete h (timers w)).
Proof.
  intros Hr Hl Hcb. apply reachable_wf in Hr.
  split; [|split].
  - now apply step_keeps_auto_reset.
  - intros Hs. split.
    + cbn [step]. rewrite handleBodyClick_BUTTON.
      unfold resetGame. apply setState_currentState.
    + apply step_keeps_auto_reset; [assumption.. | discriminate].
  - intros Hs w'. subst w'. cbn [step]. rewrite Hl, Hcb. cbn [runCallback].
    pose proof (wf_state _ Hr) as Hst. pose proof (wf_data _ Hr) as Hd.
    rewrite Hs in Hst, Hd. destruct Hd as [Hd1 Hd2].
    unfold resetGame, setState, updateUI. fields.
    rewrite Hst. cbn [truthy_int]. fields. rewrite ?Hst, ?Hd1, ?Hd2. repeat split.
Qed.

Lemma demo_error_reachable : reachable demo_error.
Proof.
  unfold demo_error, demo_waiting. do 2 apply reachable_step.
  apply reachable_boot. unfold valid_page. cbn. lia.
Defined.

Lemma auto_reset_stays_pending_witness :
  currentState (step 2000 PlayAgainButtonClick demo_error) = START
  /\ callback <$> timers (step 2000 PlayAgainButtonClick demo_error) !! 2
     = Some AutoResetCallback.
Proof.
  assert (Hl : timers demo_error !! 2
               = Some {| callback := AutoResetCallback; delay := 3000%Q |})
    by (vm_compute; reflexivity).
  pose proof (auto_reset_stays_pending 2000 PlayAgainButtonClick demo_error 2 _
                demo_error_reachable Hl eq_refl) as (_ & H & _).
  assert (Hs : currentState demo_error = ERROR) by (vm_compute; reflexivity).
  destruct (H Hs) as [H1 H2]. split; [exact H1|]. now rewrite H2.
Defined.

(** C5, as stated, fails: after start, an early click and a reset, the
    auto-reset scheduled on entering ERROR is still pending. *)
Lemma reset_does_not_cancel_auto_reset : ~ reset_cancels_auto_reset.
Proof.
  intros H.
  specialize (H 2000 demo_error 2
                {| callback := AutoResetCallback; delay := 3000%Q |}
                demo_error_reachable).
  assert (E : timers (step 2000 PlayAgainButtonClick demo_error) !! 2 = None).
  { apply H; vm_compute; reflexivity. }
  vm_compute in E. discriminate E.
Qed.

(** The left-over callback is not always harmless: if a new round has been
    started meanwhile, it cancels that round's trigger and puts the game
    back to START. *)
Example stale_auto_reset_ends_next_round :
  let w := run [(2000, PlayAgainButtonClick);
                (2500, StartButtonClick (1 # 2)%Q)] demo_error in
  currentState w = WAITING
  /\ waitTimeout w = Some 3
  /\ currentState (step 4500 (TimerFires 2) w) = START
  /\ timers (step 4500 (TimerFires 2) w) !! 3 = None.
Proof. vm_compute. repeat split. Qed.

(** ** The best score and its slot *)





Lemma all_digits_string_of_digits ds :
  Forall is_digit ds -> all_digits (string_of_digits ds) = true.
Proof.
  induction 1 as [|d ds Hd _ IH]; [reflexivity|].
  change (string_of_digits (d :: ds))
    with (String (digit_char d) (string_of_digits ds)).
  cbn [all_digits]. rewrite IH. digit_cases d Hd; reflexivity.
Qed.

(** The text [toString] writes is a decimal integer. *)
Lemma toString_is_decimal v : is_decimal_text (toString v) = true.
Proof.
  unfold toString. destruct (Z.ltb_spec v 0) as [Hneg | Hpos].
  - destruct (digits_of_nonneg_spec (- v)) as (Hall & Hne & _); [lia|].
    cbn [is_decimal_text]. rewrite all_digits_string_of_digits by assumption.
    destruct (digits_of_nonneg (- v)); [congruence | reflexivity].
  - destruct (digits_of_nonneg_spec v) as (Hall & Hne & _); [lia|].
    pose proof (all_digits_string_of_digits _ Hall) as Ha.
    destruct Hall as [|d ds Hd Hds]; [congruence|].
    change (string_of_digits (d :: ds))
      with (String (digit_char d) (string_of_digits ds)) in *.
    digit_cases d Hd; cbn [is_decimal_text digit_char]; exact Ha.
Qed.

Lemma loadBestScore_text w s :
  getItem storageKey w = Some s -> s <> EmptyString ->
  loadBestScore w = parseInt s.
Proof.
  intros Hg Hs. unfold loadBestScore. rewrite Hg. cbn [truthy_str string_of_item].
  apply String.eqb_neq in Hs. now rewrite Hs.
Qed.




Example loadBestScore_examples :
  loadBestScore (boot demo_page_prefix) = Num 12
  /\ bestScore (boot demo_page_prefix) = Num 12
  /\ parseInt "0x10" = Num 16 /\ parseInt " 42" = Num 42
  /\ parseInt "abc" = NaN /\ parseInt "1e3" = Num 1.
Proof. vm_compute. repeat split. Qed.

Lemma loadBestScore_storage w1 w2 :
  localStorage w1 = localStorage w2 -> loadBestScore w1 = loadBestScore w2.
Proof. intros E. unfold loadBestScore, getItem. now rewrite E. Qed.

Lemma handleReactionClick_bestScore now w :
  (bestScore (handleReactionClick now w) = bestScore w
   /\ localStorage (handleReactionClick now w) = localStorage w)
  \/ (exists time,
        (negb (truthy (bestScore w)) || less_than time (bestScore w)) = true
        /\ bestScore (handleReactionClick now w) = Num time
        /\ localStorage (handleReactionClick now w)
           = <[storageKey := toString time]> (localStorage w)).
Proof.
  unfold handleReactionClick. destruct (truthy_int (startTime w)); cbn [negb].
  - cbv zeta. fields.
    destruct (negb (truthy (bestScore w)) || less_than _ (bestScore w)) eqn:E;
      unfold showResult, saveBestScore, updateBestScoreDisplay, setState, updateUI;
      fields.
    + right. eexists. split; [exact E|]. split; reflexivity.
    + left. split; reflexivity.
  - left. split; reflexivity.
Qed.

Lemma resetGame_bestScore w :
  bestScore (resetGame w) = bestScore w
  /\ localStorage (resetGame w) = localStorage w.
Proof.
  unfold resetGame, setState, updateUI. fields.
  destruct (waitTimeout w) as [h|]; cbn [truthy_int];
    try destruct (negb _); fields; split; reflexivity.
Qed.

Lemma startGame_bestScore rnd w :
  bestScore (startGame rnd w) = bestScore w
  /\ localStorage (startGame rnd w) = localStorage w.
Proof.
  unfold startGame, setState, updateUI. fields.
  destruct (waitTimeout w) as [h|]; cbn [truthy_int];
    try destruct (negb _); fields; split; reflexivity.
Qed.

Lemma handleEarlyClick_bestScore w :
  bestScore (handleEarlyClick w) = bestScore w
  /\ localStorage (handleEarlyClick w) = localStorage w.
Proof.
  unfold handleEarlyClick, setState, updateUI. fields.
  destruct (waitTimeout w) as [h|]; cbn [truthy_int];
    try destruct (negb _); fields; split; reflexivity.
Qed.

Lemma triggerCallback_bestScore now w :
  bestScore (triggerCallback now w) = bestScore w
  /\ localStorage (triggerCallback now w) = localStorage w.
Proof.
  unfold triggerCallback. destruct (decide (currentState w = WAITING));
    [unfold setState, updateUI; fields|]; split; reflexivity.
Qed.

(** Each turn either leaves the best score and the slot alone or records
    a reaction time the record test has accepted. *)
Lemma step_bestScore now e w :
  (bestScore (step now e w) = bestScore w
   /\ localStorage (step now e w) = localStorage w)
  \/ (exists time,
        (negb (truthy (bestScore w)) || less_than time (bestScore w)) = true
        /\ bestScore (step now e w) = Num time
        /\ localStorage (step now e w)
           = <[storageKey := toString time]> (localStorage w)).
Proof.
  destruct e as [rnd| |tagName|h]; cbn [step].
  - left. rewrite handleBodyClick_BUTTON. apply startGame_bestScore.
  - left. rewrite handleBodyClick_BUTTON. apply resetGame_bestScore.
  - unfold handleBodyClick. destruct (String.eqb tagName "BUTTON"); [now left|].
    destruct (currentState w); try (now left).
    + left. apply handleEarlyClick_bestScore.
    + apply handleReactionClick_bestScore.
  - left. destruct (timers w !! h) as [t|]; [|now split].
    destruct (callback t); cbn [runCallback].
    + apply (triggerCallback_bestScore now (set_timers _ w)).
    + apply (resetGame_bestScore (set_timers _ w)).
Qed.

(** X10: in every reachable state the score in memory is the one
    [loadBestScore] reads from the slot. *)
Lemma bestScore_in_sync w : reachable w -> bestScore w = loadBestScore w.
Proof.
  induction 1 as [p Hp | now e w Hr IH].
  - unfold boot, init, updateBestScoreDisplay, setState, updateUI. fields.
    apply loadBestScore_storage. reflexivity.
  - destruct (step_bestScore now e w) as [[Eb Es] | (time & _ & Eb & Es)].
    + rewrite Eb, IH. symmetry. now apply loadBestScore_storage.
    + rewrite Eb. symmetry.
      rewrite (loadBestScore_text _ (toString time)).
      * apply parseInt_toString.
      * unfold getItem. rewrite Es. apply lookup_insert_eq.
      * apply toString_nonempty.
Qed.

(** X11: while the best score is a number other than 0, no event makes
    it go up. *)
Lemma bestScore_non_increasing now e w b :
  bestScore w = Num b -> b <> 0 ->
  exists b', bestScore (step now e w) = Num b' /\ b' <= b.
Proof.
  intros Hb Hnz.
  destruct (step_bestScore now e w) as [[Eb _] | (time & Hrec & Eb & _)].
  - exists b. split; [congruence | lia].
  - exists time. split; [exact Eb|]. rewrite Hb in Hrec. cbn in Hrec.
    destruct (Z.eqb_spec b 0); [contradiction|]. cbn in Hrec. lia.
Qed.

(** C3 at its failing input: a first reaction time of 0 ms is stored, and
    the next round's 250 ms replaces it as a new record: the stored best
    score goes up from 0 to 250. *)
Theorem best_score_rises_after_zero :
  let w1 := run session_zero (boot demo_page) in
  let w2 := run session_250 w1 in
  reachable w2
  /\ bestScore w1 = Num 0 /\ localStorage w1 !! storageKey = Some "0"
  /\ reactionTime w2 = Some 250
  /\ bestScore w2 = Num 250 /\ localStorage w2 !! storageKey = Some "250"
  /\ bestScoreElement w1 = "--"
  /\ resultMessage w2 = getResultMessage 250 true.
Proof.
  split.
  - unfold session_250, session_zero. cbn [run].
    do 7 apply reachable_step. apply reachable_boot. unfold valid_page. cbn. lia.
  - vm_compute. repeat split.
Qed.

(** With reaction times 320, 180 and 250 ms the best score ends as 180,
    stored as that text. *)
Example best_score_of_three_rounds :
  let w := run three_rounds (boot demo_page) in
  bestScore w = Num 180 /\ localStorage w !! storageKey = Some "180"
  /\ reactionTime w = Some 250 /\ bestScoreElement w = "180ms"
  /\ resultMessage w = "⚡ 反應很棒！".
Proof. vm_compute. repeat split. Qed.

(** ** Further properties of the game *)

Lemma boot_demo_reachable : reachable (boot demo_page).
Proof. apply reachable_boot. unfold valid_page. cbn. lia. Defined.

Lemma demo_waiting_reachable : reachable demo_waiting.
Proof. unfold demo_waiting. apply reachable_step, boot_demo_reachable. Defined.

Lemma demo_result_reachable : reachable demo_result.
Proof. unfold demo_result. apply reachable_step, demo_ready_reachable. Defined.

(** X1: in every reachable state the start time and the reaction time are
    null in START, the start time is set in READY, and both are set in
    RESULT. *)
Theorem times_by_state (w : World) :
  reachable w ->
  match currentState w with
  | START => startTime w = None /\ reactionTime w = None
  | READY => exists t0, startTime w = Some t0
  | RESULT =>
      (exists t0, startTime w = Some t0) /\ exists r, reactionTime w = Some r
  | _ => True
  end.
Proof. intros Hr. apply reachable_wf in Hr. apply (wf_data _ Hr). Qed.

Lemma times_by_state_witness :
  (exists t0, startTime demo_result = Some t0)
  /\ exists r, reactionTime demo_result = Some r.
Proof. exact (times_by_state demo_result demo_result_reachable). Defined.

Lemma resetGame_clean w :
  wf w ->
  currentState (resetGame w) = START /\ startTime (resetGame w) = None
  /\ reactionTime (resetGame w) = None /\ waitTimeout (resetGame w) = None
  /\ (forall h, waitTimeout w = Some h -> timers (resetGame w) !! h = None).
Proof.
  intros Hwf. unfold resetGame, setState, updateUI. fields.
  destruct (waitTimeout w) as [h|] eqn:Hh.
  - rewrite <- Hh, (truthy_int_handle w h Hwf Hh), Hh. fields.
    repeat split. intros h' [= <-]. apply lookup_delete_eq.
  - cbn [truthy_int]. fields. rewrite ?Hh. repeat split. intros h' [=].
Qed.

(** X2: the play-again button brings every reachable state to START with
    the start time, the reaction time and the handle null; a pending
    trigger has been cancelled, so no trigger timer is left and the old
    handle fires nothing afterwards; the best score and its slot are
    kept. *)
Theorem reset_gives_clean_start (now now' : Z) (w : World) :
  reachable w ->
  let w' := step now PlayAgainButtonClick w in
  currentState w' = START /\ startTime w' = None /\ reactionTime w' = None
  /\ waitTimeout w' = None
  /\ (forall h t, timers w' !! h = Some t -> callback t = AutoResetCallback)
  /\ (forall h, waitTimeout w = Some h -> step now' (TimerFires h) w' = w')
  /\ bestScore w' = bestScore w /\ localStorage w' = localStorage w.
Proof.
  intros Hr w'. apply reachable_wf in Hr.
  assert (Hwf' : wf w') by (apply step_wf, Hr).
  subst w'. cbn [step] in *. rewrite handleBodyClick_BUTTON in *.
  destruct (resetGame_clean w Hr) as (Hs & Ht & Hrt & Hw & Hc).
  destruct (resetGame_bestScore w) as [Hb Hl].
  repeat (split; [assumption|]). split; [|split; [|split; assumption]].
  - intros h t Hlk. destruct (callback t) eqn:Hcb; [|reflexivity].
    destruct (wf_trigger _ Hwf' _ _ Hlk Hcb) as [E _]. congruence.
  - intros h Hh. cbn [step]. now rewrite (Hc h Hh).
Qed.

Lemma reset_gives_clean_start_witness :
  currentState (step 2000 PlayAgainButtonClick demo_waiting) = START
  /\ step 3000 (TimerFires 1) (step 2000 PlayAgainButtonClick demo_waiting)
     = step 2000 PlayAgainButtonClick demo_waiting.
Proof.
  pose proof (reset_gives_clean_start 2000 3000 demo_waiting
                demo_waiting_reachable) as H.
  cbv zeta in H. destruct H as (H1 & _ & _ & _ & _ & H6 & _).
  split; [exact H1|]. apply H6. vm_compute; reflexivity.
Defined.




Lemma fire_trigger_facts now w h :
  wf w -> currentState w = WAITING -> waitTimeout w = Some h ->
  let w' := step now (TimerFires h) w in
  currentState w' = READY /\ startTime w' = Some now
  /\ timers w' = delete h (timers w) /\ waitTimeout w' = Some h
  /\ reactionTime w' = reactionTime w /\ bestScore w' = bestScore w
  /\ localStorage w' = localStorage w.
Proof.
  intros Hr Hs Hh w'.
  pose proof (wf_state _ Hr) as Hst. rewrite Hs in Hst.
  destruct Hst as (h0 & t & E1 & E2 & E3).
  assert (h0 = h) by congruence. subst h0 w'.
  cbn [step]. rewrite E2, E3. cbn [runCallback].
  unfold triggerCallback. fields. rewrite Hs.
  destruct (decide (WAITING = WAITING)) as [_|]; [|congruence].
  unfold setState, updateUI. fields. repeat split. exact Hh.
Qed.

(** X4: when the trigger of a reachable WAITING state comes due, the game
    enters READY with the clock value as start time; the timer is no
    longer pending, the handle stays in [waitTimeout], and the reaction
    time, the best score and its slot are untouched. *)
Theorem trigger_enters_ready (now : Z) (w : World) (h : Z) :
  reachable w -> currentState w = WAITING -> waitTimeout w = Some h ->
  let w' := step now (TimerFires h) w in
  currentState w' = READY /\ startTime w' = Some now
  /\ timers w' = delete h (timers w) /\ waitTimeout w' = Some h
  /\ reactionTime w' = reactionTime w /\ bestScore w' = bestScore w
  /\ localStorage w' = localStorage w.
Proof. intros Hr. apply fire_trigger_facts, reachable_wf, Hr. Qed.

Lemma trigger_enters_ready_witness :
  currentState demo_ready = READY /\ startTime demo_ready = Some 3000.
Proof.
  assert (Hs : currentState demo_waiting = WAITING) by (vm_compute; reflexivity).
  assert (Hh : waitTimeout demo_waiting = Some 1) by (vm_compute; reflexivity).
  pose proof (trigger_enters_ready 3000 demo_waiting 1
                demo_waiting_reachable Hs Hh) as H.
  cbv zeta in H. destruct H as (Ha & Hb & _).
  split; [exact Ha | exact Hb].
Defined.

(** X5: an early click in a reachable WAITING state schedules the
    auto-reset, a timer of 3000 ms under a new handle, and leaves
    [waitTimeout] null; when that timer fires the game is back in START
    with the start time, the reaction time and the handle null and no timer
    pending under that handle. *)
Theorem early_click_auto_resets (now now' : Z) (tagName : string) (w : World) :
  reachable w -> currentState w = WAITING -> tagName <> "BUTTON" ->
  let w' := step now (BodyClick tagName) w in
  let w'' := step now' (TimerFires (nextTimerId w)) w' in
  timers w' !! nextTimerId w
    = Some {| callback := AutoResetCallback; delay := 3000%Q |}
  /\ waitTimeout w' = None
  /\ currentState w'' = START /\ startTime w'' = None
  /\ reactionTime w'' = None /\ waitTimeout w'' = None
  /\ timers w'' !! nextTimerId w = None.
Proof.
  intros Hr Hs Htag w' w''. apply reachable_wf in Hr.
  pose proof (wf_state _ Hr) as Hst. rewrite Hs in Hst.
  destruct Hst as (h & t & Hh & _).
  assert (Hl : timers w' !! nextTimerId w
               = Some {| callback := AutoResetCallback; delay := 3000%Q |}).
  { subst w'. cbn [step]. unfold handleBodyClick.
    rewrite (eqb_BUTTON _ Htag), Hs.
    unfold handleEarlyClick, setState, updateUI. fields.
    rewrite (truthy_int_handle w h Hr Hh), Hh. fields.
    apply lookup_insert_eq. }
  assert (Hw : waitTimeout w' = None).
  { subst w'. cbn [step]. unfold handleBodyClick.
    rewrite (eqb_BUTTON _ Htag), Hs.
    unfold handleEarlyClick, setState, updateUI. fields.
    rewrite (truthy_int_handle w h Hr Hh), Hh. fields. reflexivity. }
  split; [exact Hl|]. split; [exact Hw|].
  subst w''. cbn [step]. rewrite Hl. cbn [callback runCallback].
  unfold resetGame, setState, updateUI. fields.
  rewrite Hw. cbn [truthy_int]. fields. rewrite ?Hw.
  repeat split. apply lookup_delete_eq.
Qed.

Lemma early_click_auto_resets_witness :
  waitTimeout demo_error = None
  /\ currentState (step 4500 (TimerFires 2) demo_error) = START.
Proof.
  assert (Hs : currentState demo_waiting = WAITING) by (vm_compute; reflexivity).
  assert (Ht : "DIV" <> "BUTTON") by discriminate.
  pose proof (early_click_auto_resets 1500 4500 "DIV" demo_waiting
                demo_waiting_reachable Hs Ht) as H.
  cbv zeta in H. destruct H as (_ & Hb & Hc & _).
  split; [exact Hb | exact Hc].
Defined.

(** X6: a click in READY whose start time passes the guard shows the
    reaction time and applies the record test.  With no best score (null,
    NaN or 0) the time becomes the best score and the message carries the
    record notice.  With a best score [b] other than 0 the best score
    becomes the smaller of the two, the slot is written only when the time
    is strictly smaller, and the notice appears exactly then. *)
Theorem reaction_click_keeps_minimum (now t0 : Z) (tagName : string) (w : World) :
  currentState w = READY -> startTime w = Some t0 -> t0 <> 0 ->
  tagName <> "BUTTON" ->
  let w' := step now (BodyClick tagName) w in
  let r := now - t0 in
  reactionTimeElement w' = toString r ++ "ms"
  /\ (absent (bestScore w) ->
      bestScore w' = Num r
      /\ localStorage w' !! storageKey = Some (toString r)
      /\ resultMessage w' = getResultMessage r true)
  /\ (forall b, bestScore w = Num b -> b <> 0 ->
      bestScore w' = Num (Z.min r b)
      /\ resultMessage w' = getResultMessage r (r <? b)
      /\ (r < b -> localStorage w' !! storageKey = Some (toString r))
      /\ (b <= r -> localStorage w' = localStorage w)).
Proof.
  intros Hs Ht0 Hnz Htag w' r. subst w' r. cbn [step]. unfold handleBodyClick.
  rewrite (eqb_BUTTON _ Htag), Hs. unfold handleReactionClick.
  rewrite Ht0. cbn [truthy_int to_number].
  destruct (Z.eqb_spec t0 0) as [|_]; [contradiction|]. cbn [negb]. cbv zeta.
  fields. split; [|split].
  - destruct (negb (truthy (bestScore w)) || less_than _ (bestScore w));
      unfold showResult, saveBestScore, updateBestScoreDisplay, setState, updateUI;
      fields; reflexivity.
  - intros Hab. unfold absent in Hab. rewrite Hab. cbn [negb orb].
    unfold showResult, saveBestScore, updateBestScoreDisplay, setState, updateUI.
    fields. split; [reflexivity|]. split; [apply lookup_insert_eq | reflexivity].
  - intros b Hb Hbnz. rewrite Hb. cbn [truthy less_than].
    destruct (Z.eqb_spec b 0) as [|_]; [contradiction|]. cbn [negb orb].
    destruct (Z.ltb_spec (now - t0) b) as [Hlt | Hge];
      unfold showResult, saveBestScore, updateBestScoreDisplay, setState, updateUI;
      fields.
    + rewrite Z.min_l by lia. split; [reflexivity|]. split; [reflexivity|].
      split; [intros _; apply lookup_insert_eq | intros; lia].
    + rewrite Z.min_r by lia. split; [exact Hb|]. split; [reflexivity|].
      split; [intros; lia | reflexivity].
Qed.

Lemma reaction_click_keeps_minimum_witness :
  bestScore demo_result = Num 250
  /\ localStorage demo_result !! storageKey = Some "250".
Proof.
  assert (Hs : currentState demo_ready = READY) by (vm_compute; reflexivity).
  assert (Ht0 : startTime demo_ready = Some 3000) by (vm_compute; reflexivity).
  assert (Hnz : 3000 <> 0) by lia.
  assert (Htag : "DIV" <> "BUTTON") by discriminate.
  pose proof (reaction_click_keeps_minimum 3250 3000 "DIV" demo_ready
                Hs Ht0 Hnz Htag) as H.
  cbv zeta in H. destruct H as (_ & H2 & _).
  assert (Hab : absent (bestScore demo_ready)) by (vm_compute; reflexivity).
  destruct (H2 Hab) as (Ha & Hb & _).
  split; [exact Ha | exact Hb].
Defined.




(** X8: only a click in READY can change the best score or the storage:
    every other event leaves both as they are, and no event touches a key
    other than the game's own. *)
Theorem storage_written_only_by_ready_click (now : Z) (e : Event) (w : World) :
  ((forall tagName, e = BodyClick tagName -> currentState w <> READY) ->
   bestScore (step now e w) = bestScore w
   /\ localStorage (step now e w) = localStorage w)
  /\ (forall k, k <> storageKey ->
        localStorage (step now e w) !! k = localStorage w !! k).
Proof.
  split.
  - intros He. destruct e as [rnd| |tagName|h]; cbn [step].
    + rewrite handleBodyClick_BUTTON. apply startGame_bestScore.
    + rewrite handleBodyClick_BUTTON. apply resetGame_bestScore.
    + specialize (He tagName eq_refl). unfold handleBodyClick.
      destruct (String.eqb tagName "BUTTON"); [now split|].
      destruct (currentState w); try (now split); try congruence.
      apply handleEarlyClick_bestScore.
    + destruct (timers w !! h) as [t|]; [|now split].
      destruct (callback t); cbn [runCallback].
      * apply (triggerCallback_bestScore now (set_timers _ w)).
      * apply (resetGame_bestScore (set_timers _ w)).
  - intros k Hk.
    destruct (step_bestScore now e w) as [[_ Es] | (time & _ & _ & Es)];
      rewrite Es; [reflexivity|].
    now apply lookup_insert_ne.
Qed.

Lemma storage_written_only_by_ready_click_witness :
  localStorage (step 9000 PlayAgainButtonClick demo_result)
  = localStorage demo_result.
Proof.
  destruct (storage_written_only_by_ready_click 9000 PlayAgainButtonClick
              demo_result) as [H _].
  apply H. intros tagName E. discriminate E.
Defined.

Lemma step_keeps_result_shown now e w :
  (currentState w = RESULT ->
   exists r b, reactionTime w = Some r
               /\ reactionTimeElement w = toString r ++ "ms"
               /\ resultMessage w = getResultMessage r b) ->
  currentState (step now e w) = RESULT ->
  exists r b, reactionTime (step now e w) = Some r
              /\ reactionTimeElement (step now e w) = toString r ++ "ms"
              /\ resultMessage (step now e w) = getResultMessage r b.
Proof.
  intros H. destruct e as [rnd| |tagName|h]; cbn [step].
  - rewrite handleBodyClick_BUTTON. unfold startGame.
    intros E. exfalso. revert E.
    unfold setState, updateUI. fields.
    destruct (waitTimeout w) as [h|]; cbn [truthy_int];
      try destruct (negb _); fields; discriminate.
  - rewrite handleBodyClick_BUTTON. unfold resetGame.
    rewrite setState_currentState. discriminate.
  - unfold handleBodyClick. destruct (String.eqb tagName "BUTTON"); [exact H|].
    destruct (currentState w) eqn:Hs; cbv beta iota;
      try (intros E; congruence); try (intros _; now apply H).
    + rewrite handleEarlyClick_currentState. discriminate.
    + unfold handleReactionClick.
      destruct (truthy_int (startTime w)); cbn [negb].
      * intros _. cbv zeta. fields.
        destruct (negb (truthy (bestScore w)) || less_than _ (bestScore w)) eqn:E;
          unfold showResult, saveBestScore, updateBestScoreDisplay, setState, updateUI;
          fields; eexists _, _; repeat split.
      * fields. congruence.
  - destruct (timers w !! h) as [t|]; [|exact H].
    destruct (callback t); cbn [runCallback].
    + unfold triggerCallback. fields.
      destruct (decide (currentState w = WAITING)) as [Hs|Hs].
      * unfold setState, updateUI. fields. discriminate.
      * fields. exact H.
    + unfold resetGame. rewrite setState_currentState. discriminate.
Qed.

(** X9: in every reachable RESULT state the page shows the measured
    time: the reaction-time element holds the decimal text of
    [reactionTime] followed by [ms], and the message is the one
    [getResultMessage] gives for that time. *)
Theorem result_is_shown (w : World) :
  reachable w -> currentState w = RESULT ->
  exists r b, reactionTime w = Some r
              /\ reactionTimeElement w = toString r ++ "ms"
              /\ resultMessage w = getResultMessage r b.
Proof.
  induction 1 as [p Hp | now e w Hr IH].
  - unfold boot, init. fields. rewrite setState_currentState. discriminate.
  - now apply step_keeps_result_shown.
Qed.

Lemma result_is_shown_witness :
  exists r b, reactionTime demo_result = Some r
              /\ reactionTimeElement demo_result = toString r ++ "ms"
              /\ resultMessage demo_result = getResultMessage r b.
Proof.
  apply (result_is_shown demo_result demo_result_reachable).
  vm_compute; reflexivity.
Defined.

Lemma ready_click_result now t0 tagName w :
  currentState w = READY -> startTime w = Some t0 -> t0 <> 0 ->
  tagName <> "BUTTON" ->
  let w' := handleBodyClick tagName now w in
  currentState w' = RESULT /\ reactionTime w' = Some (now - t0)
  /\ reactionTimeElement w' = toString (now - t0) ++ "ms"
  /\ timers w' = timers w.
Proof.
  intros Hs Ht0 Hnz Htag w'. subst w'. unfold handleBodyClick.
  rewrite (eqb_BUTTON _ Htag), Hs. rewrite handleReactionClick_timers.
  unfold handleReactionClick.
  rewrite Ht0. cbn [truthy_int to_number].
  destruct (Z.eqb_spec t0 0) as [|_]; [contradiction|]. cbn [negb]. cbv zeta.
  fields.
  destruct (negb (truthy (bestScore w)) || less_than _ (bestScore w));
    unfold showResult, saveBestScore, updateBestScoreDisplay, setState, updateUI;
    fields; repeat split.
Qed.


Lemma start_click_idle now rnd w :
  wf w -> waitTimeout w = None ->
  let w' := step now (StartButtonClick rnd) w in
  currentState w' = WAITING /\ waitTimeout w' = Some (nextTimerId w)
  /\ timers w'
     = <[nextTimerId w := {| callback := TriggerCallback;
                             delay := (rnd * 2000 + 1000)%Q |}]> (timers w).
Proof.
  intros Hr Hw w'. subst w'. cbn [step]. rewrite handleBodyClick_BUTTON.
  unfold startGame, setState, updateUI. fields.
  rewrite Hw. cbn [truthy_int]. fields. repeat split.
Qed.

(** X14: a whole round from a reachable START state: the start button,
    then the trigger coming due at clock [t0], then a click at clock [t1],
    ends in RESULT with the reaction time [t1 - t0], shown with [ms]
    after it. *)
Theorem round_measures_elapsed
    (now0 t0 t1 : Z) (rnd : Q) (tagName : string) (w : World) :
  reachable w -> currentState w = START -> t0 <> 0 -> tagName <> "BUTTON" ->
  let w3 := run [(now0, StartButtonClick rnd);
                 (t0, TimerFires (nextTimerId w));
                 (t1, BodyClick tagName)] w in
  currentState w3 = RESULT
  /\ reactionTime w3 = Some (t1 - t0)
  /\ reactionTimeElement w3 = toString (t1 - t0) ++ "ms"
  /\ timers w3 = timers w.
Proof.
  intros Hr Hs Hnz Htag w3. apply reachable_wf in Hr.
  pose proof (wf_state _ Hr) as Hst. rewrite Hs in Hst.
  assert (Hfresh : timers w !! nextTimerId w = None).
  { destruct (timers w !! nextTimerId w) as [t|] eqn:E; [|reflexivity].
    apply (wf_timers _ Hr) in E. lia. }
  subst w3. cbn [run].
  pose proof (step_wf now0 (StartButtonClick rnd) w Hr) as Hwf1.
  destruct (start_click_idle now0 rnd w Hr Hst) as (Hs1 & Hh1 & Ht1).
  set (w1 := step now0 (StartButtonClick rnd) w) in *. clearbody w1.
  destruct (fire_trigger_facts t0 w1 _ Hwf1 Hs1 Hh1)
    as (Hs2 & Hst2 & Ht2 & _).
  set (w2 := step t0 (TimerFires (nextTimerId w)) w1) in *. clearbody w2.
  destruct (ready_click_result t1 t0 tagName w2 Hs2 Hst2 Hnz Htag)
    as (Ha & Hb & Hc & Hd).
  cbn [step]. split; [exact Ha|]. split; [exact Hb|]. split; [exact Hc|].
  rewrite Hd, Ht2, Ht1, delete_insert_eq. now apply delete_id.
Qed.

Lemma round_measures_elapsed_witness :
  reactionTime
    (run [(1000, StartButtonClick (1 # 2)%Q);
          (3000, TimerFires (nextTimerId (boot demo_page)));
          (3250, BodyClick "DIV")] (boot demo_page))
  = Some (3250 - 3000).
Proof.
  assert (Hs : currentState (boot demo_page) = START) by (vm_compute; reflexivity).
  assert (Hnz : 3000 <> 0) by lia.
  assert (Htag : "DIV" <> "BUTTON") by discriminate.
  pose proof (round_measures_elapsed 1000 3000 3250 (1 # 2)%Q "DIV"
                (boot demo_page) boot_demo_reachable Hs Hnz Htag) as H.
  cbv zeta in H. destruct H as (_ & Hb & _). exact Hb.
Defined.
(** X15: in every reachable state, leaving the page asks for confirmation
    exactly when a trigger timer is pending or the game is in READY. *)
Theorem beforeunload_confirms_running_round (w : World) :
  reachable w ->
  beforeunload_confirms w = true
  <-> ((exists h t, timers w !! h = Some t /\ callback t = TriggerCallback)
       \/ currentState w = READY).
Proof.
  intros Hr. apply reachable_wf in Hr. unfold beforeunload_confirms.
  pose proof (wf_state _ Hr) as Hst. split.
  - intros H. destruct (currentState w) eqn:Hs; try discriminate H.
    + left. destruct Hst as (h & t & _ & E2 & E3). eauto.
    + now right.
  - intros [(h & t & Hl & Hcb) | Hs].
    + destruct (wf_trigger _ Hr _ _ Hl Hcb) as [-> _]. reflexivity.
    + rewrite Hs. reflexivity.
Qed.

Lemma beforeunload_confirms_running_round_witness :
  beforeunload_confirms demo_waiting = true
  /\ beforeunload_confirms demo_result = false.
Proof.
  split.
  - apply (beforeunload_confirms_running_round demo_waiting
             demo_waiting_reachable).
    left. exists 1, {| callback := TriggerCallback; delay := (4000 # 2)%Q |}.
    split; vm_compute; reflexivity.
  - vm_compute; reflexivity.
Defined.

Lemma bestScore_in_sync_witness :
  bestScore demo_result = loadBestScore demo_result.
Proof. exact (bestScore_in_sync demo_result demo_result_reachable). Defined.

Lemma bestScore_non_increasing_witness :
  exists b', bestScore (step 9000 PlayAgainButtonClick demo_result) = Num b'
             /\ b' <= 250.
Proof.
  apply (bestScore_non_increasing 9000 PlayAgainButtonClick demo_result 250).
  - vm_compute; reflexivity.
  - lia.
Defined.

Lemma early_click_cancels_trigger_witness :
  timers demo_error !! 1 = None
  /\ step 3000 (TimerFires 1) demo_error = demo_error.
Proof.
  assert (Hs : currentState demo_waiting = WAITING) by (vm_compute; reflexivity).
  assert (Ht : "DIV" <> "BUTTON") by discriminate.
  assert (Hh : waitTimeout demo_waiting = Some 1) by (vm_compute; reflexivity).
  exact (early_click_cancels_trigger 1500 3000 "DIV" demo_waiting 1
           demo_waiting_reachable Hs Ht Hh).
Defined.

Lemma demo_ready_at_zero_reachable : reachable demo_ready_at_zero.
Proof.
  unfold demo_ready_at_zero. apply reachable_step, demo_waiting_reachable.
Defined.

Lemma missing_startTime_only_at_zero_witness :
  startTime demo_ready_at_zero = Some 0.
Proof.
  apply (missing_startTime_only_at_zero demo_ready_at_zero
           demo_ready_at_zero_reachable); vm_compute; reflexivity.
Defined.

(** ** The page elements *)

Lemma GameStates_inj s1 s2 : GameStates s1 = GameStates s2 -> s1 = s2.
Proof. destruct s1, s2; cbn; intros E; try reflexivity; discriminate E. Qed.

Lemma setState_view_bodyClassList s v :
  bodyClassList (setState_view s v)
  = (bodyClassList v ∖ {[ "start" ]} ∖ {[ "waiting" ]} ∖ {[ "ready" ]}
       ∖ {[ "result" ]} ∖ {[ "error" ]}) ∪ {[ GameStates s ]}.
Proof. destruct s; reflexivity. Qed.

(** X16: after [setState] the body carries the class of the new state and
    of no other state; classes that are not state names stay as they
    were. *)
Theorem body_has_one_state_class (newState : GameState) (v : View) :
  (forall s, GameStates s ∈ bodyClassList (setState_view newState v)
             <-> s = newState)
  /\ (forall c, (forall s, c <> GameStates s) ->
        c ∈ bodyClassList (setState_view newState v) <-> c ∈ bodyClassList v).
Proof.
  rewrite setState_view_bodyClassList. split.
  - intros s. split.
    + intros H. apply GameStates_inj.
      apply elem_of_union in H as [H | H]; [|now apply elem_of_singleton in H].
      exfalso. rewrite !elem_of_difference, !elem_of_singleton in H.
      destruct s; cbn [GameStates] in H; tauto.
    + intros ->. apply elem_of_union_r. now apply elem_of_singleton.
  - intros c Hc.
    pose proof (Hc START) as H1. pose proof (Hc WAITING) as H2.
    pose proof (Hc READY) as H3. pose proof (Hc RESULT) as H4.
    pose proof (Hc ERROR) as H5. pose proof (Hc newState) as H6.
    cbn [GameStates] in H1, H2, H3, H4, H5.
    rewrite elem_of_union, !elem_of_difference, !elem_of_singleton. tauto.
Qed.

Lemma body_has_one_state_class_witness :
  ("waiting" ∈ bodyClassList (setState_view WAITING demo_view))
  /\ ~ ("result" ∈ bodyClassList (setState_view WAITING demo_view))
  /\ ("dark" ∈ bodyClassList (setState_view WAITING demo_view)).
Proof.
  destruct (body_has_one_state_class WAITING demo_view) as [H1 H2].
  split; [|split].
  - apply (H1 WAITING). reflexivity.
  - intros H. apply (H1 RESULT) in H. discriminate H.
  - apply H2.
    + intros s. destruct s; discriminate.
    + vm_compute. reflexivity.
Defined.

(** X17: after [setState] exactly the elements of the new state are
    shown: the start button in START only, the two captions in WAITING,
    READY and ERROR only, the result container in RESULT only; every
    display is [block] or [none]; the captions keep their text in START
    and RESULT. *)
Theorem view_shows_state (newState : GameState) (v : View) :
  let v' := setState_view newState v in
  (startButtonDisplay v' = "block" <-> newState = START)
  /\ (gameStatusDisplay v' = "block"
      <-> newState = WAITING \/ newState = READY \/ newState = ERROR)
  /\ gameInstructionsDisplay v' = gameStatusDisplay v'
  /\ ("show" ∈ resultContainerClassList v' <-> newState = RESULT)
  /\ (startButtonDisplay v' = "block" \/ startButtonDisplay v' = "none")
  /\ (gameStatusDisplay v' = "block" \/ gameStatusDisplay v' = "none")
  /\ (newState = START \/ newState = RESULT ->
      gameStatusText v' = gameStatusText v
      /\ gameInstructionsText v' = gameInstructionsText v)
  /\ (forall c, c <> "show" ->
        c ∈ resultContainerClassList v' <-> c ∈ resultContainerClassList v).
Proof.
  assert (Hshow : forall (X : gset string) c, c <> "show" ->
            (c ∈ X ∖ {[ "show" ]} <-> c ∈ X)
            /\ (c ∈ X ∖ {[ "show" ]} ∪ {[ "show" ]} <-> c ∈ X)).
  { intros X c Hc.
    rewrite elem_of_union, !elem_of_difference, !elem_of_singleton. tauto. }
  assert (Hno : forall X : gset string, ~ ("show" ∈ X ∖ {[ "show" ]})).
  { intros X. rewrite elem_of_difference, elem_of_singleton. tauto. }
  assert (Hyes : forall X : gset string, "show" ∈ X ∪ {[ "show" ]}).
  { intros X. apply elem_of_union_r. now apply elem_of_singleton. }
  destruct newState; cbn -[difference union elem_of];
    (split; [split; [intros E; first [reflexivity | discriminate E]
                    | intros E; first [reflexivity | discriminate E]]|]);
    (split; [split; [intros E; first [discriminate E | tauto]
                    | intros [E | [E | E]]; first [reflexivity | discriminate E]]|]);
    (split; [reflexivity|]);
    (split; [split; [intros E; first [reflexivity | now apply Hno in E]
                    | intros E; first [apply Hyes | discriminate E]]|]);
    (split; [tauto|]); (split; [tauto|]);
    (split; [intros [E | E]; first [split; reflexivity | discriminate E]|]);
    intros c Hc; apply (Hshow _ c Hc).
Qed.

Lemma view_shows_state_witness :
  gameStatusText (setState_view RESULT demo_view) = gameStatusText demo_view
  /\ "card" ∈ resultContainerClassList (setState_view RESULT demo_view).
Proof.
  pose proof (view_shows_state RESULT demo_view) as H. cbv zeta in H.
  destruct H as (_ & _ & _ & _ & _ & _ & H7 & H8).
  split.
  - apply H7. right. reflexivity.
  - apply H8; [discriminate | vm_compute; reflexivity].
Defined.
